(** * DatabaseManager (scaler.py): a shallow embedding and its properties

    The program is one Python class, [DatabaseManager], which wraps the
    psycopg2 PostgreSQL driver.  The embedding has three layers:

    - Python values, exceptions and a state-and-exception monad with the
      [try]/[except]/[finally] combinators the methods are written with;
    - the driver, as a store of connection and cursor objects, a log of the
      calls made to it and an oracle that decides which fallible driver call
      raises;
    - the class itself, one definition per method, in the order of the
      source. *)

From Stdlib Require Import ZArith Ascii String DecimalString.
From stdpp Require Import base list strings.


(** ** Python values *)

Module Py.

(** The values rows, bound parameters and SQL literals are made of. *)
Inductive pyval : Type :=
| PNone
| PBool (b : bool)
| PInt (z : Z)
| PStr (s : string).

(** [str(v)], as an f-string interpolates a value. *)
Definition str (v : pyval) : string :=
  match v with
  | PNone => "None"
  | PBool true => "True"
  | PBool false => "False"
  | PInt z => NilZero.string_of_int (Z.to_int z)
  | PStr s => s
  end.

(** The exceptions that occur in the program.  [DriverError] is whatever
    psycopg2 raises from the server or the network, with its message;
    [InterfaceError] is the driver's complaint about a closed object. *)
Inductive exn : Type :=
| DriverError (msg : string)
| InterfaceError (msg : string)
| AttributeError (msg : string)
| UnboundLocalError (var : string)
| IndexError (msg : string).

(** [str(e)], as [print(f"Error: {e}")] shows it.  The text of an
    [UnboundLocalError] is the one of CPython 3.11 and later. *)
Definition str_exn (e : exn) : string :=
  match e with
  | DriverError msg => msg
  | InterfaceError msg => msg
  | AttributeError msg => msg
  | UnboundLocalError var =>
      "cannot access local variable '" +:+ var
        +:+ "' where it is not associated with a value"
  | IndexError msg => msg
  end.

(** What a method call hands back to its caller. *)
Inductive pyret : Type :=
| RNone
| RList (l : list string).

End Py.
Export Py.

(** ** The state-and-exception monad *)

(** The outcome of a computation: a value, or an exception in flight. *)
Inductive outcome (A : Type) : Type :=
| Normal (a : A)
| Raised (e : exn).
Arguments Normal {A} a.
Arguments Raised {A} e.

Section Monad.
Context {S : Type}.

Definition M (A : Type) : Type := S -> outcome A * S.

Definition ret {A} (a : A) : M A := fun s => (Normal a, s).

Definition bind {A B} (m : M A) (f : A -> M B) : M B :=
  fun s =>
    match m s with
    | (Normal a, s') => f a s'
    | (Raised e, s') => (Raised e, s')
    end.

Definition raise {A} (e : exn) : M A := fun s => (Raised e, s).

Definition gets {A} (f : S -> A) : M A := fun s => (Normal (f s), s).

Definition modify (f : S -> S) : M unit := fun s => (Normal tt, f s).

(** [try: body / except Exception as e: handler e].  Every exception of
    the model derives from [Exception]. *)
Definition try_except {A} (body : M A) (handler : exn -> M A) : M A :=
  fun s =>
    match body s with
    | (Normal a, s') => (Normal a, s')
    | (Raised e, s') => handler e s'
    end.

(** [try: body / finally: fin].  The [finally] block always runs; an
    exception it raises replaces the outcome of the body. *)
Definition try_finally {A} (body : M A) (fin : M unit) : M A :=
  fun s =>
    match body s with
    | (r, s') =>
        match fin s' with
        | (Normal _, s'') => (r, s'')
        | (Raised e, s'') => (Raised e, s'')
        end
    end.
End Monad.
Arguments M : clear implicits.

Declare Scope py_scope.
Delimit Scope py_scope with py.
Notation "x <- m ;; k" := (bind m (fun x => k))
  (at level 100, m at next level, right associativity) : py_scope.
Notation "m ;; k" := (bind m (fun _ => k))
  (at level 100, right associativity) : py_scope.
Local Open Scope py_scope.

(** ** psycopg2.sql: composable SQL fragments *)

Module sql.

(** [sql.SQL], [sql.Identifier], [sql.Literal] and [sql.Composed]. *)
#[warnings="-register-all"]
Inductive Composable : Type :=
| SQL (s : string)
| Identifier (s : string)
| Literal (v : pyval)
| Composed (l : list Composable).

(** [sql.SQL(sep).join(seq)]: the first item, then the separator before
    each further item. *)
Definition join (sep : string) (seq : list Composable) : Composable :=
  Composed
    match seq with
    | [] => []
    | first :: rest => first :: flat_map (fun i => [SQL sep; i]) rest
    end.

(** The literal text seen so far becomes an [SQL] piece, unless empty. *)
Definition flush (pre : string) : list Composable :=
  match pre with
  | EmptyString => []
  | _ => [SQL pre]
  end.

(** [sql.SQL(tmpl).format( *args )] for templates whose only replacement
    fields are the auto-numbered [{}], which is all the program uses.
    [None] is the [IndexError] of a template with more fields than
    arguments. *)
Fixpoint format_pieces (tmpl pre : string) (args : list Composable)
  : option (list Composable) :=
  match tmpl with
  | EmptyString => Some (flush pre)
  | String c t =>
      match t with
      | String d rest =>
          if (Ascii.eqb c "{"%char && Ascii.eqb d "}"%char)%bool then
            match args with
            | [] => None
            | a :: args' =>
                match format_pieces rest EmptyString args' with
                | Some l => Some (flush pre ++ a :: l)%list
                | None => None
                end
            end
          else format_pieces t (pre +:+ String c EmptyString) args
      | EmptyString => Some (flush (pre +:+ String c EmptyString))
      end
  end.

Definition format (tmpl : string) (args : list Composable)
  : option Composable :=
  match format_pieces tmpl EmptyString args with
  | Some l => Some (Composed l)
  | None => None
  end.

(** The double quote character. *)
Definition dquote : Ascii.ascii := "034"%char.

(** Every double quote of an identifier is doubled. *)
Fixpoint escape_ident (s : string) : string :=
  match s with
  | EmptyString => EmptyString
  | String c s' =>
      if Ascii.eqb c dquote
      then String c (String c (escape_ident s'))
      else String c (escape_ident s')
  end.

(** [quote_ident]: the identifier between double quotes, escaped. *)
Definition quote_ident (s : string) : string :=
  String dquote (escape_ident s +:+ String dquote EmptyString).

(** [as_string]: the text sent to the server.  How a Python value becomes
    a SQL literal is the driver's adaptation, [adapt]. *)
Fixpoint as_string (adapt : pyval -> string) (c : Composable) : string :=
  match c with
  | SQL s => s
  | Identifier s => quote_ident s
  | Literal v => adapt v
  | Composed l =>
      (fix all (l : list Composable) : string :=
         match l with
         | [] => EmptyString
         | x :: l' => as_string adapt x +:+ all l'
         end) l
  end.

End sql.

(** ** The driver *)

(** What [cursor.execute] is given: a plain string or a composable. *)
Inductive query : Type :=
| QStr (s : string)
| QSql (c : sql.Composable).

(** A connection object and a cursor object of the driver.  [c_closed] and
    [k_closed] record an explicit [close()]. *)
Record ConnObj : Type := mkConn {
  c_dbname : string;
  c_autocommit : bool;
  c_closed : bool
}.

Record CursorObj : Type := mkCursor {
  k_conn : nat;
  k_closed : bool
}.

(** The calls the program makes to the driver. *)
Inductive call : Type :=
| CConnect (dbname user password host port : string)
| CSetAutocommit (c : nat) (b : bool)
| CCursor (c : nat)
| CExecute (k : nat) (q : query) (params : list pyval)
| CFetchall (k : nat)
| CCommit (c : nat)
| CCursorClose (k : nat)
| CConnectionClose (c : nat).

(** Everything outside the facade.  An object is named by its index in
    [conns] or [cursors].  [faults] is the oracle: each fallible driver
    call takes its head, [Some msg] makes the call raise, [None] or an
    exhausted oracle lets it succeed.  [rows] is what the server answers
    to the next [fetchall]. *)
Record World : Type := mkWorld {
  conns : list ConnObj;
  cursors : list CursorObj;
  stdout : list string;
  calls : list call;
  faults : list (option string);
  rows : list (list string)
}.

Definition set_conns (f : list ConnObj -> list ConnObj) (w : World) :=
  mkWorld (f (conns w)) (cursors w) (stdout w) (calls w) (faults w) (rows w).
Definition set_cursors (f : list CursorObj -> list CursorObj) (w : World) :=
  mkWorld (conns w) (f (cursors w)) (stdout w) (calls w) (faults w) (rows w).
Definition set_stdout (f : list string -> list string) (w : World) :=
  mkWorld (conns w) (cursors w) (f (stdout w)) (calls w) (faults w) (rows w).
Definition set_calls (f : list call -> list call) (w : World) :=
  mkWorld (conns w) (cursors w) (stdout w) (f (calls w)) (faults w) (rows w).
Definition set_faults (fs : list (option string)) (w : World) :=
  mkWorld (conns w) (cursors w) (stdout w) (calls w) fs (rows w).

Module psycopg2.

Definition log (c : call) : M World unit :=
  modify (set_calls (fun l => (l ++ [c])%list)).

(** One question to the oracle. *)
Definition tick : M World unit :=
  fun w =>
    match faults w with
    | Some msg :: rest => (Raised (DriverError msg), set_faults rest w)
    | None :: rest => (Normal tt, set_faults rest w)
    | [] => (Normal tt, w)
    end.

Definition conn_is_open (c : nat) (w : World) : bool :=
  match conns w !! c with
  | Some o => negb (c_closed o)
  | None => false
  end.

Definition cursor_is_open (k : nat) (w : World) : bool :=
  match cursors w !! k with
  | Some o => negb (k_closed o)
  | None => false
  end.

(** The connection a cursor was made from. *)
Definition cursor_conn (k : nat) (w : World) : option nat :=
  k_conn <$> cursors w !! k.

Arguments conn_is_open : simpl never.
Arguments cursor_is_open : simpl never.
Arguments cursor_conn : simpl never.

Definition require_conn (c : nat) : M World unit :=
  ok <- gets (conn_is_open c) ;;
  if ok then ret tt else raise (InterfaceError "connection already closed").

(** A cursor is as closed as its connection. *)
Definition require_cursor (k : nat) : M World unit :=
  ok <- gets (cursor_is_open k) ;;
  if ok then
    oc <- gets (cursor_conn k) ;;
    match oc with
    | Some c =>
        ok' <- gets (conn_is_open c) ;;
        if ok' then ret tt
        else raise (InterfaceError "cursor already closed")
    | None => ret tt
    end
  else raise (InterfaceError "cursor already closed").

(** [psycopg2.connect(dbname=..., user=..., ...)]: a new open connection,
    or the driver's exception. *)
Definition connect (dbname user password host port : string) : M World nat :=
  log (CConnect dbname user password host port) ;;
  tick ;;
  c <- gets (fun w => length (conns w)) ;;
  modify (set_conns (fun l => (l ++ [mkConn dbname false false])%list)) ;;
  ret c.

(** [connection.autocommit = b] *)
Definition set_autocommit (c : nat) (b : bool) : M World unit :=
  log (CSetAutocommit c b) ;;
  require_conn c ;;
  modify (set_conns (alter (fun o => mkConn (c_dbname o) b (c_closed o)) c)).

(** [connection.cursor()] *)
Definition cursor (c : nat) : M World nat :=
  log (CCursor c) ;;
  require_conn c ;;
  tick ;;
  k <- gets (fun w => length (cursors w)) ;;
  modify (set_cursors (fun l => (l ++ [mkCursor c false])%list)) ;;
  ret k.

(** [cursor.execute(q, params)] *)
Definition execute (k : nat) (q : query) (params : list pyval) : M World unit :=
  log (CExecute k q params) ;;
  require_cursor k ;;
  tick.

(** [cursor.fetchall()] *)
Definition fetchall (k : nat) : M World (list (list string)) :=
  log (CFetchall k) ;;
  require_cursor k ;;
  tick ;;
  gets rows.

(** [connection.commit()] *)
Definition commit (c : nat) : M World unit :=
  log (CCommit c) ;;
  require_conn c ;;
  tick.

(** [cursor.close()] and [connection.close()]: closing never raises, and
    closing a closed object does nothing more. *)
Definition cursor_close (k : nat) : M World unit :=
  log (CCursorClose k) ;;
  modify (set_cursors (alter (fun o => mkCursor (k_conn o) true) k)).

Definition connection_close (c : nat) : M World unit :=
  log (CConnectionClose c) ;;
  modify (set_conns
            (alter (fun o => mkConn (c_dbname o) (c_autocommit o) true) c)).

End psycopg2.

(** ** The class [DatabaseManager] *)

(** The object: four credentials and the stored session.  [None] in
    [connection] or [cursor] is Python's [None]; [Some i] is a reference
    to the driver object [i].  A driver object is truthy, so the tests
    [if self.cursor:] and [not self.connection] ask whether the field is
    [None]. *)
Record DatabaseManager : Type := mkManager {
  user : string;
  password : string;
  host : string;
  port : string;
  connection : option nat;
  cursor : option nat
}.

(** The local variables [connection] and [cursor] of [create_database] and
    [list_databases], which their [finally] blocks read whatever happened
    before.  [None] is a local that no assignment has bound yet. *)
Record Frame : Type := mkFrame {
  l_connection : option nat;
  l_cursor : option nat
}.

Record Machine : Type := mkMachine {
  self : DatabaseManager;
  frame : Frame;
  world : World
}.

Definition set_self (f : DatabaseManager -> DatabaseManager) (s : Machine) :=
  mkMachine (f (self s)) (frame s) (world s).
Definition set_frame (f : Frame -> Frame) (s : Machine) :=
  mkMachine (self s) (f (frame s)) (world s).

Definition on_world {A} (m : M World A) : M Machine A :=
  fun s =>
    match m (world s) with
    | (r, w) => (r, mkMachine (self s) (frame s) w)
    end.

(** [print(line)] *)
Definition print (line : string) : M Machine unit :=
  on_world (modify (set_stdout (fun l => (l ++ [line])%list))).

(** Reading a local variable: unbound locals raise. *)
Definition local (name : string) (proj : Frame -> option nat) : M Machine nat :=
  v <- gets (fun s => proj (frame s)) ;;
  match v with
  | Some x => ret x
  | None => raise (UnboundLocalError name)
  end.

(** [obj.name] where [obj] may be [None]. *)
Definition getattr (obj : option nat) (name : string) : M Machine nat :=
  match obj with
  | Some x => ret x
  | None =>
      raise (AttributeError
               ("'NoneType' object has no attribute '" +:+ name +:+ "'"))
  end.

(** A method call runs in a frame of its own. *)
Definition method {A} (body : M Machine A) : M Machine A :=
  fun s =>
    match body (mkMachine (self s) (mkFrame None None) (world s)) with
    | (r, s') => (r, mkMachine (self s') (frame s) (world s'))
    end.

(** [psycopg2.connect(dbname=dbname, user=self.user, ...)] *)
Definition connect_as_self (dbname : string) : M Machine nat :=
  d <- gets self ;;
  on_world (psycopg2.connect dbname (user d) (password d) (host d) (port d)).

(** The value of [sql.SQL(...).format(...)], or its [IndexError]. *)
Definition built (q : option sql.Composable) : M Machine sql.Composable :=
  match q with
  | Some q => ret q
  | None => raise (IndexError "tuple index out of range")
  end.

(** [except Exception as e: print(f"Error: {e}")], after which the method
    falls off its end and returns [None]. *)
Definition print_error (e : exn) : M Machine pyret :=
  print ("Error: " +:+ str_exn e) ;; ret RNone.

(** The [finally] block of [create_database] and [list_databases]. *)
Definition close_locals : M Machine unit :=
  k <- local "cursor" l_cursor ;;
  on_world (psycopg2.cursor_close k) ;;
  c <- local "connection" l_connection ;;
  on_world (psycopg2.connection_close c).

Definition __init__ (user password : string) (host port : option string)
  : DatabaseManager :=
  mkManager user password (default "localhost" host) (default "5432" port)
            None None.

Definition create_database (dbname : string) : M Machine pyret :=
  method
    (try_finally
       (try_except
          (c <- connect_as_self "postgres" ;;
           modify (set_frame (fun f => mkFrame (Some c) (l_cursor f))) ;;
           on_world (psycopg2.set_autocommit c true) ;;
           k <- on_world (psycopg2.cursor c) ;;
           modify (set_frame (fun f => mkFrame (l_connection f) (Some k))) ;;
           on_world (psycopg2.execute k (QStr ("CREATE DATABASE " +:+ dbname)) []) ;;
           print ("Database '" +:+ dbname +:+ "' created successfully!") ;;
           ret RNone)
          print_error)
       close_locals).

(** [[db[0] for db in databases]] *)
Fixpoint first_columns (databases : list (list string)) : M Machine (list string) :=
  match databases with
  | [] => ret []
  | db :: rest =>
      match db with
      | x :: _ => l <- first_columns rest ;; ret (x :: l)
      | [] => raise (IndexError "tuple index out of range")
      end
  end.

Definition list_databases : M Machine pyret :=
  method
    (try_finally
       (try_except
          (c <- connect_as_self "postgres" ;;
           modify (set_frame (fun f => mkFrame (Some c) (l_cursor f))) ;;
           k <- on_world (psycopg2.cursor c) ;;
           modify (set_frame (fun f => mkFrame (l_connection f) (Some k))) ;;
           on_world
             (psycopg2.execute k
                (QStr "SELECT datname FROM pg_database WHERE datistemplate = false;")
                []) ;;
           databases <- on_world (psycopg2.fetchall k) ;;
           names <- first_columns databases ;;
           ret (RList names))
          print_error)
       close_locals).

Definition switch_database (dbname : string) : M Machine pyret :=
  try_except
    (c <- connect_as_self dbname ;;
     modify (set_self (fun d =>
       mkManager (user d) (password d) (host d) (port d) (Some c) (cursor d))) ;;
     d <- gets self ;;
     c' <- getattr (connection d) "cursor" ;;
     k <- on_world (psycopg2.cursor c') ;;
     modify (set_self (fun d =>
       mkManager (user d) (password d) (host d) (port d) (connection d) (Some k))) ;;
     print ("Successfully switched to database '" +:+ dbname +:+ "'.") ;;
     ret RNone)
    print_error.

(** [self.cursor.execute(q, params)] then [self.connection.commit()]. *)
Definition execute_and_commit (q : sql.Composable) (params : list pyval)
  : M Machine unit :=
  d <- gets self ;;
  k <- getattr (cursor d) "execute" ;;
  on_world (psycopg2.execute k (QSql q) params) ;;
  d <- gets self ;;
  c <- getattr (connection d) "commit" ;;
  on_world (psycopg2.commit c).

(** [', '.join([f"{col[0]} {col[1]}" for col in columns])] *)
Definition columns_query (columns : list (string * string)) : string :=
  String.concat ", " (map (fun col => fst col +:+ " " +:+ snd col) columns).

(** [if columns:] holds for a list that is not empty. *)
Definition create_table_query (table_name : string)
    (columns : option (list (string * string))) : option sql.Composable :=
  match columns with
  | Some (col :: cols) =>
      sql.format "CREATE TABLE {} ({})"
        [sql.Identifier table_name; sql.SQL (columns_query (col :: cols))]
  | _ => sql.format "CREATE TABLE {} ()" [sql.Identifier table_name]
  end.

Definition create_table (table_name : string)
    (columns : option (list (string * string))) : M Machine pyret :=
  try_except
    (d <- gets self ;;
     match connection d, cursor d with
     | Some _, Some _ =>
         q <- built (create_table_query table_name columns) ;;
         execute_and_commit q [] ;;
         print ("Table '" +:+ table_name +:+ "' created successfully!") ;;
         ret RNone
     | _, _ =>
         print "Not connected to any database." ;;
         ret RNone
     end)
    print_error.

Definition add_column_query (table_name column_name column_type : string)
  : option sql.Composable :=
  sql.format "ALTER TABLE {} ADD COLUMN {} {}"
    [sql.Identifier table_name; sql.Identifier column_name;
     sql.SQL column_type].

Definition add_column (dbname table_name column_name column_type : string)
  : M Machine pyret :=
  try_except
    (switch_database dbname ;;
     q <- built (add_column_query table_name column_name column_type) ;;
     execute_and_commit q [] ;;
     print ("Column '" +:+ column_name +:+ "' of type '" +:+ column_type
              +:+ "' added to table '" +:+ table_name +:+ "'.") ;;
     ret RNone)
    print_error.

(** [column_values] is a dict: its items, in insertion order. *)
Definition insert_query (table_name : string)
    (column_values : list (string * pyval)) : option sql.Composable :=
  let columns := map fst column_values in
  let values := map snd column_values in
  sql.format "INSERT INTO {} ({}) VALUES ({})"
    [sql.Identifier table_name;
     sql.join ", " (map sql.Identifier columns);
     sql.join ", " (map sql.Literal values)].

Definition insert_row (dbname table_name : string)
    (column_values : list (string * pyval)) : M Machine pyret :=
  try_except
    (switch_database dbname ;;
     q <- built (insert_query table_name column_values) ;;
     execute_and_commit q [] ;;
     print ("Row inserted into table '" +:+ table_name +:+ "'.") ;;
     ret RNone)
    print_error.

Definition delete_query (table_name : string) : option sql.Composable :=
  sql.format "DELETE FROM {} WHERE id = %s" [sql.Identifier table_name].

Definition delete_row (dbname table_name : string) (row_id : pyval)
  : M Machine pyret :=
  try_except
    (switch_database dbname ;;
     q <- built (delete_query table_name) ;;
     execute_and_commit q [row_id] ;;
     print ("Row with id " +:+ str row_id +:+ " deleted from table '"
              +:+ table_name +:+ "'.") ;;
     ret RNone)
    print_error.

(** [', '.join([f"{key} = %s" for key in update_data.keys()])] *)
Definition set_clause (update_data : list (string * pyval)) : string :=
  String.concat ", " (map (fun key => key +:+ " = %s") (map fst update_data)).

Definition update_query (table_name : string)
    (update_data : list (string * pyval)) : option sql.Composable :=
  sql.format "UPDATE {} SET {} WHERE id = %s"
    [sql.Identifier table_name; sql.SQL (set_clause update_data)].

Definition update_row (dbname table_name : string) (row_id : pyval)
    (update_data : list (string * pyval)) : M Machine pyret :=
  try_except
    (switch_database dbname ;;
     q <- built (update_query table_name update_data) ;;
     let values := (map snd update_data ++ [row_id])%list in
     execute_and_commit q values ;;
     print ("Row with id " +:+ str row_id +:+ " updated in table '"
              +:+ table_name +:+ "'.") ;;
     ret RNone)
    print_error.

Definition close_connection : M Machine pyret :=
  d <- gets self ;;
  match cursor d with
  | Some k => on_world (psycopg2.cursor_close k)
  | None => ret tt
  end ;;
  d <- gets self ;;
  match connection d with
  | Some c =>
      on_world (psycopg2.connection_close c) ;;
      print "Connection closed."
  | None => ret tt
  end ;;
  ret RNone.

(** ** Calls, scripts and the notions the properties are stated with *)

(** A call of a public method, with its arguments. *)
Inductive op : Type :=
| CreateDatabase (dbname : string)
| ListDatabases
| SwitchDatabase (dbname : string)
| CreateTable (table_name : string) (columns : option (list (string * string)))
| AddColumn (dbname table_name column_name column_type : string)
| InsertRow (dbname table_name : string) (column_values : list (string * pyval))
| DeleteRow (dbname table_name : string) (row_id : pyval)
| UpdateRow (dbname table_name : string) (row_id : pyval)
            (update_data : list (string * pyval))
| CloseConnection.

Definition run_op (o : op) : M Machine pyret :=
  match o with
  | CreateDatabase dbname => create_database dbname
  | ListDatabases => list_databases
  | SwitchDatabase dbname => switch_database dbname
  | CreateTable table_name columns => create_table table_name columns
  | AddColumn dbname table_name column_name column_type =>
      add_column dbname table_name column_name column_type
  | InsertRow dbname table_name column_values =>
      insert_row dbname table_name column_values
  | DeleteRow dbname table_name row_id => delete_row dbname table_name row_id
  | UpdateRow dbname table_name row_id update_data =>
      update_row dbname table_name row_id update_data
  | CloseConnection => close_connection
  end.

(** The machine after a sequence of calls, made by a caller that goes on
    whatever a call returns or raises. *)
Fixpoint run_ops (os : list op) (s : Machine) : Machine :=
  match os with
  | [] => s
  | o :: os' => run_ops os' (snd (run_op o s))
  end.



(** The facade of [t] is the facade of [s], field by field. *)
Definition same_self (s t : Machine) : Prop := self t = self s.

(** The driver has been called some more, and no earlier call is lost. *)
Definition more_calls (w w' : World) : Prop :=
  exists more, calls w' = (calls w ++ more)%list.

Definition more_calls_m (s t : Machine) : Prop :=
  more_calls (world s) (world t).

(** [keeps R m]: whatever [m] does, the state it leaves is related by [R]
    to the one it started from. *)
Definition keeps {S A} (R : S -> S -> Prop) (m : M S A) : Prop :=
  forall s, R s (snd (m s)).

(** [never_raises m]: no exception leaves [m]. *)
Definition never_raises {A} (m : M Machine A) : Prop :=
  forall s, exists a, fst (m s) = Normal a.

(** The driver lets the next [n] fallible calls succeed. *)
Fixpoint accepts (n : nat) (fs : list (option string)) : bool :=
  match n, fs with
  | O, _ => true
  | S _, [] => true
  | S n', None :: fs' => accepts n' fs'
  | S _, Some _ :: _ => false
  end.

(** [occurs_in t s]: the text [t] occurs in [s] as it is. *)
Definition occurs_in (t s : string) : Prop :=
  exists pre post, s = pre +:+ t +:+ post.



(** The example usage at the end of the source: the facade it builds, and
    a world with nothing in it whose driver answers by [fs]. *)
Definition db_manager : DatabaseManager :=
  __init__ "postgres" "postgres" None None.

Definition boot (fs : list (option string)) : Machine :=
  mkMachine db_manager (mkFrame None None)
            (mkWorld [] [] [] [] fs [["postgres"]; ["new_db"]]).

(** The machine once the example usage has switched to [new_db]. *)
Definition switched (fs : list (option string)) : Machine :=
  snd (switch_database "new_db" (boot fs)).


(** ** The example usage at the end of the source *)

(** How the script ends: it runs to its last line, or an exception no one
    catches stops it.  [for db in databases] with [databases] being [None]
    raises a [TypeError], which no method of the class can raise. *)
Inductive script_end : Type :=
| Completed
| Uncaught (e : exn)
| UncaughtTypeError (msg : string).

(** [for db in databases: print(db)] *)
Fixpoint print_each (databases : list string) : M Machine unit :=
  match databases with
  | [] => ret tt
  | db :: rest => print db ;; print_each rest
  end.

(** The script from [db_manager.switch_database('new_db')] on. *)
Definition example_session : M Machine pyret :=
  switch_database "new_db" ;;
  create_table "person"
    (Some [("id", "SERIAL PRIMARY KEY"); ("name", "VARCHAR(100)");
           ("age", "INTEGER")]) ;;
  insert_row "new_db" "person" [("name", PStr "John Doe"); ("age", PInt 30)] ;;
  update_row "new_db" "person" (PInt 2)
    [("name", PStr "Jane Doe"); ("age", PInt 31)] ;;
  close_connection.

(** The whole script, run in the world [w]. *)
Definition example_usage (w : World) : script_end * Machine :=
  match list_databases (mkMachine db_manager (mkFrame None None) w) with
  | (Raised e, s1) => (Uncaught e, s1)
  | (Normal databases, s1) =>
      match print "Databases:" s1 with
      | (_, s2) =>
          match databases with
          | RNone =>
              (UncaughtTypeError "'NoneType' object is not iterable", s2)
          | RList dbs =>
              match (print_each dbs ;; example_session) s2 with
              | (Normal _, s3) => (Completed, s3)
              | (Raised e, s3) => (Uncaught e, s3)
              end
          end
      end
  end.

(** ** Further notions *)

(** The facade stores the connection [c] and the cursor [k], both open,
    and [k] is a cursor of [c]. *)
Definition live_session (s : Machine) (c k : nat) : Prop :=
  connection (self s) = Some c
  /\ cursor (self s) = Some k
  /\ psycopg2.conn_is_open c (world s) = true
  /\ psycopg2.cursor_is_open k (world s) = true
  /\ psycopg2.cursor_conn k (world s) = Some c.

(** A call that closes something. *)
Definition is_close (c : call) : bool :=
  match c with
  | CCursorClose _ | CConnectionClose _ => true
  | _ => false
  end.

(** Every driver object of [w] is in [w'] as it was, and none of the
    calls made in between is a [close()]. *)
Definition nothing_closed (w w' : World) : Prop :=
  (forall i o, conns w !! i = Some o -> conns w' !! i = Some o)
  /\ (forall i o, cursors w !! i = Some o -> cursors w' !! i = Some o)
  /\ exists more,
      calls w' = calls w ++ more /\ existsb is_close more = false.


(** The first column of every row, when every row has one. *)
Fixpoint heads (rows : list (list string)) : option (list string) :=
  match rows with
  | [] => Some []
  | [] :: _ => None
  | (x :: _) :: rest =>
      match heads rest with
      | Some l => Some (x :: l)
      | None => None
      end
  end.

(** What a session method executes, with which parameters, which
    database it switches to first and what it prints when all went well:
    the reading of the method bodies that the properties below are stated
    with. *)
Definition session_statement (o : op) : option sql.Composable :=
  match o with
  | CreateTable table_name columns => create_table_query table_name columns
  | AddColumn _ table_name column_name column_type =>
      add_column_query table_name column_name column_type
  | InsertRow _ table_name column_values =>
      insert_query table_name column_values
  | DeleteRow _ table_name _ => delete_query table_name
  | UpdateRow _ table_name _ update_data =>
      update_query table_name update_data
  | _ => None
  end.

Definition session_params (o : op) : list pyval :=
  match o with
  | DeleteRow _ _ row_id => [row_id]
  | UpdateRow _ _ row_id update_data => map snd update_data ++ [row_id]
  | _ => []
  end.

Definition target_database (o : op) : option string :=
  match o with
  | AddColumn dbname _ _ _ | InsertRow dbname _ _
  | DeleteRow dbname _ _ | UpdateRow dbname _ _ _ => Some dbname
  | _ => None
  end.

Definition success_line (o : op) : string :=
  match o with
  | CreateTable table_name _ =>
      "Table '" +:+ table_name +:+ "' created successfully!"
  | AddColumn _ table_name column_name column_type =>
      "Column '" +:+ column_name +:+ "' of type '" +:+ column_type
        +:+ "' added to table '" +:+ table_name +:+ "'."
  | InsertRow _ table_name _ =>
      "Row inserted into table '" +:+ table_name +:+ "'."
  | DeleteRow _ table_name row_id =>
      "Row with id " +:+ str row_id +:+ " deleted from table '"
        +:+ table_name +:+ "'."
  | UpdateRow _ table_name row_id _ =>
      "Row with id " +:+ str row_id +:+ " updated in table '"
        +:+ table_name +:+ "'."
  | _ => ""
  end.

(** A method body that, when it returns, returns [None]. *)
Definition returns_none (m : M Machine pyret) : Prop :=
  forall s a, fst (m s) = Normal a -> a = RNone.


Definition nothing_closed_m (s t : Machine) : Prop :=
  nothing_closed (world s) (world t).

(** * Properties *)

(** ** What the combinators keep *)

Section Keeps.
Context {S : Type}.
Variable R : S -> S -> Prop.
Hypothesis R_refl : forall s, R s s.
Hypothesis R_trans : forall s1 s2 s3, R s1 s2 -> R s2 s3 -> R s1 s3.

Lemma keeps_ret {A} (a : A) : keeps R (ret a).
Proof. intros s. apply R_refl. Qed.

Lemma keeps_raise {A} (e : exn) : keeps R (raise (A := A) e).
Proof. intros s. apply R_refl. Qed.

Lemma keeps_gets {A} (f : S -> A) : keeps R (gets f).
Proof. intros s. apply R_refl. Qed.

Lemma keeps_bind {A B} (m : M S A) (f : A -> M S B) :
  keeps R m -> (forall a, keeps R (f a)) -> keeps R (bind m f).
Proof.
  intros Hm Hf s. unfold bind. specialize (Hm s).
  destruct (m s) as [[a|e] s1]; simpl in *; [|assumption].
  eapply R_trans; [eassumption|apply Hf].
Qed.

Lemma keeps_try_except {A} (m : M S A) (h : exn -> M S A) :
  keeps R m -> (forall e, keeps R (h e)) -> keeps R (try_except m h).
Proof.
  intros Hm Hh s. unfold try_except. specialize (Hm s).
  destruct (m s) as [[a|e] s1]; simpl in *; [assumption|].
  eapply R_trans; [eassumption|apply Hh].
Qed.

Lemma keeps_try_finally {A} (m : M S A) (fin : M S unit) :
  keeps R m -> keeps R fin -> keeps R (try_finally m fin).
Proof.
  intros Hm Hf s. unfold try_finally. specialize (Hm s).
  destruct (m s) as [r s1]. specialize (Hf s1).
  destruct (fin s1) as [[u|e] s2]; simpl in *; eapply R_trans; eassumption.
Qed.
End Keeps.

(** On the machine, for a relation that looks at the facade and at the
    world but not at the frame. *)
Section KeepsMachine.
Variable R : Machine -> Machine -> Prop.
Hypothesis R_refl : forall s, R s s.
Hypothesis R_trans : forall s1 s2 s3, R s1 s2 -> R s2 s3 -> R s1 s3.
Hypothesis R_frame :
  forall s1 s2 t1 t2,
    self s1 = self s2 -> world s1 = world s2 ->
    self t1 = self t2 -> world t1 = world t2 ->
    R s1 t1 -> R s2 t2.

Lemma keeps_method {A} (m : M Machine A) : keeps R m -> keeps R (method m).
Proof.
  intros Hm s. unfold method.
  specialize (Hm (mkMachine (self s) (mkFrame None None) (world s))).
  destruct (m _) as [r s1]. simpl in *.
  eapply R_frame; [| | | |exact Hm]; reflexivity.
Qed.

Lemma keeps_set_frame (f : Frame -> Frame) : keeps R (modify (set_frame f)).
Proof.
  intros s. simpl. eapply R_frame; [| | | |apply (R_refl s)]; reflexivity.
Qed.

Lemma keeps_local name proj : keeps R (local name proj).
Proof.
  apply keeps_bind; [assumption|apply keeps_gets; assumption|].
  intros [x|]; [apply keeps_ret|apply keeps_raise]; assumption.
Qed.

Lemma keeps_getattr obj name : keeps R (getattr obj name).
Proof. destruct obj; [apply keeps_ret|apply keeps_raise]; assumption. Qed.

Lemma keeps_built q : keeps R (built q).
Proof. destruct q; [apply keeps_ret|apply keeps_raise]; assumption. Qed.

Lemma keeps_first_columns dbs : keeps R (first_columns dbs).
Proof.
  induction dbs as [|[|x db] rest IH]; simpl.
  - apply keeps_ret; assumption.
  - apply keeps_raise; assumption.
  - apply keeps_bind; [assumption|exact IH|].
    intros l. apply keeps_ret; assumption.
Qed.

End KeepsMachine.

(** [keeps_by refl trans frm leaf] goes down a method body, combinator by
    combinator, and leaves to [leaf] what is particular to the relation. *)
Ltac keeps_by refl trans frm leaf :=
  repeat
    first
      [ leaf
      | apply keeps_ret; exact refl
      | apply keeps_raise; exact refl
      | apply keeps_gets; exact refl
      | apply keeps_set_frame; [exact refl | exact frm]
      | apply keeps_local; [exact refl | exact trans]
      | apply keeps_getattr; exact refl
      | apply keeps_built; exact refl
      | apply keeps_first_columns; [exact refl | exact trans]
      | apply keeps_method; [exact frm|]
      | apply keeps_try_finally; [exact trans| |]
      | apply keeps_try_except; [exact trans| |intros ?]
      | apply keeps_bind; [exact trans| |intros ?]
      | match goal with
        | |- keeps _ (match ?x with _ => _ end) => destruct x
        | |- keeps _ (if ?x then _ else _) => destruct x
        end ].

(** *** The credentials *)









(** *** The facade as a whole *)

Lemma same_self_refl s : same_self s s.
Proof. reflexivity. Qed.

Lemma same_self_trans s1 s2 s3 :
  same_self s1 s2 -> same_self s2 s3 -> same_self s1 s3.
Proof. unfold same_self. congruence. Qed.

Lemma same_self_frame s1 s2 t1 t2 :
  self s1 = self s2 -> world s1 = world s2 ->
  self t1 = self t2 -> world t1 = world t2 ->
  same_self s1 t1 -> same_self s2 t2.
Proof. unfold same_self. congruence. Qed.

Lemma same_self_on_world {A} (m : M World A) : keeps same_self (on_world m).
Proof. intros s. unfold on_world. destruct (m (world s)). reflexivity. Qed.

Ltac same_self :=
  keeps_by same_self_refl same_self_trans same_self_frame
    ltac:(apply same_self_on_world).

(** *** The log of driver calls *)

Lemma more_calls_refl w : more_calls w w.
Proof. exists []. symmetry. apply app_nil_r. Qed.

Lemma more_calls_trans w1 w2 w3 :
  more_calls w1 w2 -> more_calls w2 w3 -> more_calls w1 w3.
Proof.
  intros [m1 H1] [m2 H2]. exists (m1 ++ m2)%list.
  rewrite H2, H1. symmetry. apply app_assoc.
Qed.

Lemma more_calls_log c : keeps more_calls (psycopg2.log c).
Proof. intros w. exists [c]. reflexivity. Qed.

Lemma more_calls_tick : keeps more_calls psycopg2.tick.
Proof.
  intros w. unfold psycopg2.tick.
  destruct (faults w) as [|[msg|] rest]; exists []; simpl;
    symmetry; apply app_nil_r.
Qed.

Lemma more_calls_set_conns f : keeps more_calls (modify (set_conns f)).
Proof. intros w. exists []. simpl. symmetry. apply app_nil_r. Qed.

Lemma more_calls_set_cursors f : keeps more_calls (modify (set_cursors f)).
Proof. intros w. exists []. simpl. symmetry. apply app_nil_r. Qed.

Lemma more_calls_set_stdout f : keeps more_calls (modify (set_stdout f)).
Proof. intros w. exists []. simpl. symmetry. apply app_nil_r. Qed.

Ltac more_calls_w :=
  repeat
    first
      [ apply more_calls_log
      | apply more_calls_tick
      | apply more_calls_set_conns
      | apply more_calls_set_cursors
      | apply more_calls_set_stdout
      | apply keeps_ret; exact more_calls_refl
      | apply keeps_raise; exact more_calls_refl
      | apply keeps_gets; exact more_calls_refl
      | apply keeps_bind; [exact more_calls_trans| |intros ?]
      | match goal with
        | |- keeps _ (match ?x with _ => _ end) => destruct x
        | |- keeps _ (if ?x then _ else _) => destruct x
        end ].

Lemma more_calls_driver :
  (forall d u p h pt, keeps more_calls (psycopg2.connect d u p h pt))
  /\ (forall c b, keeps more_calls (psycopg2.set_autocommit c b))
  /\ (forall c, keeps more_calls (psycopg2.cursor c))
  /\ (forall k q ps, keeps more_calls (psycopg2.execute k q ps))
  /\ (forall k, keeps more_calls (psycopg2.fetchall k))
  /\ (forall c, keeps more_calls (psycopg2.commit c))
  /\ (forall k, keeps more_calls (psycopg2.cursor_close k))
  /\ (forall c, keeps more_calls (psycopg2.connection_close c)).
Proof.
  repeat split; intros;
    unfold psycopg2.connect, psycopg2.set_autocommit, psycopg2.cursor,
      psycopg2.execute, psycopg2.fetchall, psycopg2.commit,
      psycopg2.cursor_close, psycopg2.connection_close,
      psycopg2.require_cursor, psycopg2.require_conn;
    more_calls_w.
Qed.

Lemma more_calls_m_refl s : more_calls_m s s.
Proof. apply more_calls_refl. Qed.

Lemma more_calls_m_trans s1 s2 s3 :
  more_calls_m s1 s2 -> more_calls_m s2 s3 -> more_calls_m s1 s3.
Proof. apply more_calls_trans. Qed.

Lemma more_calls_m_frame s1 s2 t1 t2 :
  self s1 = self s2 -> world s1 = world s2 ->
  self t1 = self t2 -> world t1 = world t2 ->
  more_calls_m s1 t1 -> more_calls_m s2 t2.
Proof. unfold more_calls_m. congruence. Qed.

Lemma more_calls_on_world {A} (m : M World A) :
  keeps more_calls m -> keeps more_calls_m (on_world m).
Proof.
  intros Hm s. unfold on_world, more_calls_m. specialize (Hm (world s)).
  destruct (m (world s)). exact Hm.
Qed.

Lemma more_calls_set_self f : keeps more_calls_m (modify (set_self f)).
Proof. intros s. exists []. simpl. symmetry. apply app_nil_r. Qed.

Ltac more_calls :=
  keeps_by more_calls_m_refl more_calls_m_trans more_calls_m_frame
    ltac:(first [ apply more_calls_set_self
                | apply more_calls_on_world;
                  first [ apply more_calls_driver
                        | apply more_calls_set_stdout ] ]).


(** ** The statements the methods build *)

Lemma create_table_query_eq table_name columns :
  create_table_query table_name columns
  = Some (sql.Composed
            match columns with
            | Some (col :: cols) =>
                [sql.SQL "CREATE TABLE "; sql.Identifier table_name;
                 sql.SQL " ("; sql.SQL (columns_query (col :: cols));
                 sql.SQL ")"]
            | _ =>
                [sql.SQL "CREATE TABLE "; sql.Identifier table_name;
                 sql.SQL " ()"]
            end).
Proof. destruct columns as [[|col cols]|]; reflexivity. Qed.

Lemma add_column_query_eq table_name column_name column_type :
  add_column_query table_name column_name column_type
  = Some (sql.Composed
            [sql.SQL "ALTER TABLE "; sql.Identifier table_name;
             sql.SQL " ADD COLUMN "; sql.Identifier column_name;
             sql.SQL " "; sql.SQL column_type]).
Proof. reflexivity. Qed.

Lemma insert_query_eq table_name column_values :
  insert_query table_name column_values
  = Some (sql.Composed
            [sql.SQL "INSERT INTO "; sql.Identifier table_name; sql.SQL " (";
             sql.join ", " (map sql.Identifier (map fst column_values));
             sql.SQL ") VALUES (";
             sql.join ", " (map sql.Literal (map snd column_values));
             sql.SQL ")"]).
Proof. reflexivity. Qed.

Lemma delete_query_eq table_name :
  delete_query table_name
  = Some (sql.Composed
            [sql.SQL "DELETE FROM "; sql.Identifier table_name;
             sql.SQL " WHERE id = %s"]).
Proof. reflexivity. Qed.

Lemma update_query_eq table_name update_data :
  update_query table_name update_data
  = Some (sql.Composed
            [sql.SQL "UPDATE "; sql.Identifier table_name; sql.SQL " SET ";
             sql.SQL (set_clause update_data); sql.SQL " WHERE id = %s"]).
Proof. reflexivity. Qed.

(** ** Running the driver *)

Lemma conn_is_open_new cs d a ks out cl fs rw :
  psycopg2.conn_is_open (length cs)
    (mkWorld (cs ++ [mkConn d a false]) ks out cl fs rw) = true.
Proof.
  unfold psycopg2.conn_is_open; simpl.
  rewrite (list_lookup_middle cs [] _ (length cs) eq_refl). reflexivity.
Qed.

Lemma cursor_is_open_new cs ks c out cl fs rw :
  psycopg2.cursor_is_open (length ks)
    (mkWorld cs (ks ++ [mkCursor c false]) out cl fs rw) = true.
Proof.
  unfold psycopg2.cursor_is_open; simpl.
  rewrite (list_lookup_middle ks [] _ (length ks) eq_refl). reflexivity.
Qed.

Lemma cursor_conn_new cs ks c out cl fs rw :
  psycopg2.cursor_conn (length ks)
    (mkWorld cs (ks ++ [mkCursor c false]) out cl fs rw) = Some c.
Proof.
  unfold psycopg2.cursor_conn; simpl.
  rewrite (list_lookup_middle ks [] _ (length ks) eq_refl). reflexivity.
Qed.

Lemma conn_is_open_autocommit cs d b ks out cl fs rw :
  psycopg2.conn_is_open (length cs)
    (mkWorld
       (alter (fun o => mkConn (c_dbname o) b (c_closed o)) (length cs)
          (cs ++ [mkConn d false false]))
       ks out cl fs rw) = true.
Proof.
  unfold psycopg2.conn_is_open; simpl. rewrite list_lookup_alter_eq.
  rewrite (list_lookup_middle cs [] _ (length cs) eq_refl). reflexivity.
Qed.

(** [exec] runs a method on a machine given by its fields. *)
Ltac exec :=
  unfold create_database, list_databases, switch_database, create_table,
    add_column, insert_row, delete_row, update_row, close_connection,
    execute_and_commit, connect_as_self, close_locals, print_error, print,
    method, local, getattr, built, try_except, try_finally, on_world,
    psycopg2.connect, psycopg2.set_autocommit, psycopg2.cursor,
    psycopg2.execute, psycopg2.fetchall, psycopg2.commit,
    psycopg2.cursor_close, psycopg2.connection_close,
    psycopg2.require_cursor, psycopg2.require_conn, psycopg2.log,
    psycopg2.tick, bind, gets, modify, raise, ret,
    set_self, set_frame, set_calls, set_conns, set_cursors, set_stdout,
    set_faults;
  simpl;
  repeat
    (first [ rewrite conn_is_open_new
           | rewrite cursor_is_open_new
           | rewrite cursor_conn_new
           | rewrite conn_is_open_autocommit ];
     simpl);
  rewrite <- ?app_assoc; simpl.

(** [driver_cases] splits on what is not known of the driver objects. *)
Ltac driver_cases :=
  repeat
    match goal with
    | |- context [psycopg2.cursor_is_open ?k ?w] =>
        destruct (psycopg2.cursor_is_open k w); simpl
    | |- context [psycopg2.cursor_conn ?k ?w] =>
        destruct (psycopg2.cursor_conn k w); simpl
    | |- context [psycopg2.conn_is_open ?c ?w] =>
        destruct (psycopg2.conn_is_open c w); simpl
    | |- context [match ?x with Some _ => _ | None => _ end] =>
        is_var x; destruct x; simpl
    end.

Lemma switch_database_refused dbname s msg rest :
  faults (world s) = Some msg :: rest ->
  switch_database dbname s
  = (Normal RNone,
     mkMachine (self s) (frame s)
       (mkWorld (conns (world s)) (cursors (world s))
          (stdout (world s) ++ ["Error: " +:+ msg])
          (calls (world s)
             ++ [CConnect dbname (user (self s)) (password (self s))
                   (host (self s)) (port (self s))])
          rest (rows (world s)))).
Proof.
  destruct s as [[u p h pt co cu] fr [cs ks out cl fs rw]]; simpl.
  intros ->. exec. reflexivity.
Qed.

Lemma switch_database_no_cursor dbname s msg rest :
  faults (world s) = None :: Some msg :: rest ->
  switch_database dbname s
  = (Normal RNone,
     mkMachine
       (mkManager (user (self s)) (password (self s)) (host (self s))
          (port (self s)) (Some (length (conns (world s))))
          (cursor (self s)))
       (frame s)
       (mkWorld (conns (world s) ++ [mkConn dbname false false])
          (cursors (world s))
          (stdout (world s) ++ ["Error: " +:+ msg])
          (calls (world s)
             ++ [CConnect dbname (user (self s)) (password (self s))
                   (host (self s)) (port (self s));
                 CCursor (length (conns (world s)))])
          rest (rows (world s)))).
Proof.
  destruct s as [[u p h pt co cu] fr [cs ks out cl fs rw]]; simpl.
  intros ->. exec. reflexivity.
Qed.

Lemma switch_database_accepted dbname s :
  accepts 2 (faults (world s)) = true ->
  switch_database dbname s
  = (Normal RNone,
     mkMachine
       (mkManager (user (self s)) (password (self s)) (host (self s))
          (port (self s)) (Some (length (conns (world s))))
          (Some (length (cursors (world s)))))
       (frame s)
       (mkWorld
          (conns (world s) ++ [mkConn dbname false false])
          (cursors (world s) ++ [mkCursor (length (conns (world s))) false])
          (stdout (world s)
             ++ ["Successfully switched to database '" +:+ dbname +:+ "'."])
          (calls (world s)
             ++ [CConnect dbname (user (self s)) (password (self s))
                   (host (self s)) (port (self s));
                 CCursor (length (conns (world s)))])
          (drop 2 (faults (world s)))
          (rows (world s)))).
Proof.
  destruct s as [[u p h pt co cu] fr [cs ks out cl fs rw]]; simpl.
  intros Hfs.
  destruct fs as [|[m1|] [|[m2|] fs]]; try discriminate Hfs; exec;
    reflexivity.
Qed.

Lemma faults_cases (fs : list (option string)) :
  (exists msg rest, fs = Some msg :: rest)
  \/ (exists msg rest, fs = None :: Some msg :: rest)
  \/ accepts 2 fs = true.
Proof.
  destruct fs as [|[m1|] [|[m2|] fs]]; eauto.
Qed.

Lemma switch_database_never_raises dbname : never_raises (switch_database dbname).
Proof.
  intros s. exists RNone.
  destruct (faults_cases (faults (world s))) as [(m & r & H)|[(m & r & H)|H]].
  - rewrite (switch_database_refused _ _ _ _ H). reflexivity.
  - rewrite (switch_database_no_cursor _ _ _ _ H). reflexivity.
  - rewrite (switch_database_accepted _ _ H). reflexivity.
Qed.


(** A method that starts with [self.switch_database(dbname)] goes on from
    the machine that call leaves. *)
Lemma after_switch_database dbname (rest : M Machine pyret) s :
  try_except (bind (switch_database dbname) (fun _ => rest)) print_error s
  = try_except rest print_error (snd (switch_database dbname s)).
Proof.
  unfold try_except at 1, bind.
  destruct (switch_database_never_raises dbname s) as [a Ha].
  destruct (switch_database dbname s) as [r s1]; simpl in *; subst r.
  reflexivity.
Qed.

(** With a cursor stored, [execute_and_commit] hands the statement and its
    parameters to that cursor, whatever becomes of them. *)
Lemma execute_and_commit_calls q ps s k :
  cursor (self s) = Some k ->
  exists more,
    calls (world (snd (execute_and_commit q ps s)))
    = (calls (world s) ++ CExecute k (QSql q) ps :: more)%list.
Proof.
  intros Hk.
  destruct s as [[u p h pt co cu] fr [cs ks out cl fs rw]]; simpl in Hk;
    subst cu.
  destruct fs as [|[m1|] [|[m2|] fs]]; exec; driver_cases;
    rewrite <- ?app_assoc; eexists; reflexivity.
Qed.

(** ** C1: which methods let an exception out *)

Lemma never_raises_try_except {A} (m : M Machine A) (h : exn -> M Machine A) :
  (forall e, never_raises (h e)) -> never_raises (try_except m h).
Proof.
  intros Hh s. unfold try_except.
  destruct (m s) as [[a|e] s1]; [exists a; reflexivity|apply Hh].
Qed.

Lemma never_raises_print_error e : never_raises (print_error e).
Proof. intros s. exists RNone. reflexivity. Qed.

(** The seven methods whose whole body is the [try] block catch whatever
    is raised in it. *)
Lemma session_methods_never_raise (o : op) :
  match o with
  | CreateDatabase _ | ListDatabases => True
  | _ => never_raises (run_op o)
  end.
Proof.
  destruct o; simpl; try exact I;
    try (apply never_raises_try_except; exact never_raises_print_error).
  intros [[u p h pt [c|] [k|]] fr w]; exists RNone; reflexivity.
Qed.

(** Whenever the driver refuses the connection, [create_database] and
    [list_databases] print the error and then raise from their [finally]
    block. *)
Lemma maintenance_methods_raise_when_refused s msg rest :
  faults (world s) = Some msg :: rest ->
  (forall dbname,
      fst (create_database dbname s) = Raised (UnboundLocalError "cursor"))
  /\ fst (list_databases s) = Raised (UnboundLocalError "cursor").
Proof.
  destruct s as [[u p h pt co cu] fr [cs ks out cl fs rw]]; simpl.
  intros ->. split; [intros dbname|]; exec; reflexivity.
Qed.

(** C1. [create_database], called while the server refuses connections,
    prints the driver's error and then lets an [UnboundLocalError] out: the
    [finally] block reads the local [cursor], which no assignment has
    bound.  The call does not return [None]. *)
Theorem create_database_lets_exception_out :
  fst (create_database "new_db" (boot [Some "connection refused"]))
    = Raised (UnboundLocalError "cursor")
  /\ stdout (world (snd (create_database "new_db"
                           (boot [Some "connection refused"]))))
    = ["Error: connection refused"].
Proof. split; vm_compute; reflexivity. Qed.

(** ** C5: the [finally] block of the maintenance methods *)

(** Once both locals are bound the cleanup does its work: whatever
    becomes of the statement, [create_database] returns [None] and has
    closed the cursor and the connection it opened. *)
Lemma create_database_releases_when_bound dbname s :
  accepts 2 (faults (world s)) = true ->
  let s' := snd (create_database dbname s) in
  fst (create_database dbname s) = Normal RNone
  /\ conns (world s') = conns (world s) ++ [mkConn "postgres" true true]
  /\ cursors (world s')
     = cursors (world s) ++ [mkCursor (length (conns (world s))) true].
Proof.
  assert (Hc : forall (cs : list ConnObj) d a b,
             alter (fun o => mkConn (c_dbname o) (c_autocommit o) true)
               (length cs)
               (alter (fun o => mkConn (c_dbname o) a (c_closed o))
                  (length cs) (cs ++ [mkConn d b false]))
             = cs ++ [mkConn d a true]).
  { intros. induction cs as [|x cs IH]; simpl; [reflexivity|].
    f_equal. exact IH. }
  assert (Hk : forall (ks : list CursorObj) c,
             alter (fun o => mkCursor (k_conn o) true) (length ks)
               (ks ++ [mkCursor c false])
             = ks ++ [mkCursor c true]).
  { intros. induction ks as [|x ks IH]; simpl; [reflexivity|].
    f_equal. exact IH. }
  destruct s as [[u p h pt co cu] fr [cs ks out cl fs rw]]; simpl.
  intros Hfs.
  destruct fs as [|[m1|] [|[m2|] [|[m3|] fs]]]; try discriminate Hfs;
    exec; rewrite ?Hc, ?Hk; repeat split; reflexivity.
Qed.

(** C5. When the connection cannot be opened, the cleanup of
    [list_databases] itself faults; when [create_database] has opened its
    connection and [connection.cursor()] raises, the cleanup faults before
    it reaches [connection.close()] and the connection stays open. *)
Theorem maintenance_cleanup_faults :
  fst (list_databases (boot [Some "connection refused"]))
    = Raised (UnboundLocalError "cursor")
  /\ fst (create_database "new_db" (boot [None; Some "out of memory"]))
    = Raised (UnboundLocalError "cursor")
  /\ conns (world (snd (create_database "new_db"
                          (boot [None; Some "out of memory"]))))
    = [mkConn "postgres" true false]
  /\ calls (world (snd (create_database "new_db"
                          (boot [None; Some "out of memory"]))))
    = [CConnect "postgres" "postgres" "postgres" "localhost" "5432";
       CSetAutocommit 0 true; CCursor 0].
Proof. repeat split; vm_compute; reflexivity. Qed.

(** ** C6: closing twice *)

Lemma alter_twice {A} (f : A -> A) (l : list A) (i : nat) :
  (forall x, f (f x) = f x) -> alter f i (alter f i l) = alter f i l.
Proof.
  intros Hf. rewrite list_alter_alter_eq.
  apply list_alter_ext; [intros x _; apply Hf|reflexivity].
Qed.

(** C6. [close_connection] always returns; a second call in succession
    returns too and leaves the facade, the connection objects and the
    cursor objects as the first call left them (it issues the two close
    calls again, which change nothing, and prints its line again); with
    neither a connection nor a cursor held the call changes nothing at
    all. *)
Theorem close_connection_idempotent :
  (forall s,
      fst (close_connection s) = Normal RNone
      /\ self (snd (close_connection s)) = self s
      /\ fst (close_connection (snd (close_connection s))) = Normal RNone
      /\ self (snd (close_connection (snd (close_connection s))))
         = self (snd (close_connection s))
      /\ conns (world (snd (close_connection (snd (close_connection s)))))
         = conns (world (snd (close_connection s)))
      /\ cursors (world (snd (close_connection (snd (close_connection s)))))
         = cursors (world (snd (close_connection s))))
  /\ (forall u p h pt fr w,
         close_connection (mkMachine (mkManager u p h pt None None) fr w)
         = (Normal RNone, mkMachine (mkManager u p h pt None None) fr w)).
Proof.
  split.
  - intros [[u p h pt [c|] [k|]] fr [cs ks out cl fs rw]];
      cbn; repeat split; try reflexivity; apply alter_twice; reflexivity.
  - intros u p h pt fr [cs ks out cl fs rw]. reflexivity.
Qed.

(** ** C9: the fields after a close *)

(** C9. When the facade holds a connection and a cursor,
    [close_connection] leaves both fields as they were; a [create_table]
    that follows does not take the not-connected branch: it goes on to
    [self.cursor.execute], which the closed cursor refuses, and what it
    prints is that error and not the not-connected line. *)
Theorem close_connection_keeps_fields s c k table_name columns :
  connection (self s) = Some c ->
  cursor (self s) = Some k ->
  let s1 := snd (close_connection s) in
  let s2 := snd (create_table table_name columns s1) in
  connection (self s1) = Some c
  /\ cursor (self s1) = Some k
  /\ psycopg2.cursor_is_open k (world s1) = false
  /\ stdout (world s2) = stdout (world s1) ++ ["Error: cursor already closed"]
  /\ (exists q,
        create_table_query table_name columns = Some q
        /\ calls (world s2) = calls (world s1) ++ [CExecute k (QSql q) []]).
Proof.
  destruct s as [[u p h pt co cu] fr [cs ks out cl fs rw]]; simpl.
  intros -> ->.
  assert (Hk : forall cs' out' cl',
             psycopg2.cursor_is_open k
               (mkWorld cs' (alter (fun o => mkCursor (k_conn o) true) k ks)
                  out' cl' fs rw) = false).
  { intros. unfold psycopg2.cursor_is_open; simpl.
    rewrite list_lookup_alter_eq. destruct (ks !! k); reflexivity. }
  unfold create_table. rewrite !create_table_query_eq.
  exec. rewrite !Hk. simpl.
  repeat split; try reflexivity; rewrite <- ?app_assoc; try reflexivity.
  eexists; split; [reflexivity|]. rewrite <- app_assoc. reflexivity.
Qed.

Lemma close_connection_keeps_fields_witness :
  connection (self (switched [])) = Some 0
  /\ cursor (self (switched [])) = Some 0
  /\ stdout (world (snd (create_table "person" None
                           (snd (close_connection (switched []))))))
     = ["Successfully switched to database 'new_db'."; "Connection closed.";
        "Error: cursor already closed"].
Proof.
  pose proof (close_connection_keeps_fields (switched []) 0 0 "person" None
                eq_refl eq_refl) as (_ & _ & _ & H & _).
  split; [reflexivity|]. split; [reflexivity|]. exact H.
Defined.

(** ** C8: the credentials *)


(** ** C4: what [switch_database] does to the session it replaces *)




(** ** C7: the methods that switch first *)




(** ** What reaches [cursor.execute] *)

(** The tail every session method ends with: build the statement, execute
    and commit it, print the success line. *)
Lemma statement_calls oq q ps line s k :
  oq = Some q ->
  cursor (self s) = Some k ->
  exists more,
    calls (world (snd (try_except
                         (bind (built oq) (fun q =>
                          bind (execute_and_commit q ps) (fun _ =>
                          bind (print line) (fun _ => ret RNone))))
                         print_error s)))
    = calls (world s) ++ CExecute k (QSql q) ps :: more.
Proof.
  intros -> Hk. destruct (execute_and_commit_calls q ps s k Hk) as [more H].
  exists more. unfold try_except, bind, built, ret.
  destruct (execute_and_commit q ps s) as [[u|e] s1]; simpl in *; exact H.
Qed.

(** ** C2: identifiers are not validated *)




(** ** C3: the methods called with no session stored *)

(** C3, as the claim has it, fails: [insert_row] on the facade of the
    example usage, before any [switch_database], does not fail with a
    not-connected error.  With a driver that raises nothing it connects by
    itself and inserts the row. *)
Lemma insert_row_before_any_switch :
  connection (self (boot [])) = None
  /\ cursor (self (boot [])) = None
  /\ fst (insert_row "new_db" "person"
            [("name", PStr "John Doe"); ("age", PInt 30)] (boot []))
     = Normal RNone
  /\ stdout (world (snd (insert_row "new_db" "person"
                           [("name", PStr "John Doe"); ("age", PInt 30)]
                           (boot []))))
     = ["Successfully switched to database 'new_db'.";
        "Row inserted into table 'person'."].
Proof. repeat split; vm_compute; reflexivity. Qed.

Ltac run_accepted s Hfs :=
  let fs := fresh "fs" in
  destruct s as [[? ? ? ? ? ?] ? [? ? ? ? fs ?]]; simpl in Hfs |- *;
  destruct fs as [|[?|] [|[?|] [|[?|] [|[?|] fs]]]]; try discriminate Hfs;
  exec; reflexivity.

(** C3, amended.  With no connection or no cursor stored, [create_table]
    prints its not-connected line and returns [None], and neither the
    facade nor the driver is touched.  The other four need no earlier
    [switch_database]: each makes that call itself, and when the driver
    raises nothing each returns normally, having printed the line of the
    switch and its own success line. *)
Theorem methods_without_session s :
  connection (self s) = None \/ cursor (self s) = None ->
  (forall table_name columns,
      create_table table_name columns s
      = (Normal RNone,
         mkMachine (self s) (frame s)
           (set_stdout (fun l => l ++ ["Not connected to any database."])
              (world s))))
  /\ (accepts 4 (faults (world s)) = true ->
      (forall dbname table_name column_name column_type,
         fst (add_column dbname table_name column_name column_type s)
         = Normal RNone
         /\ stdout (world (snd (add_column dbname table_name column_name
                                  column_type s)))
            = stdout (world s)
                ++ ["Successfully switched to database '" +:+ dbname +:+ "'.";
                    "Column '" +:+ column_name +:+ "' of type '"
                      +:+ column_type +:+ "' added to table '"
                      +:+ table_name +:+ "'."])
  /\ (forall dbname table_name column_values,
         fst (insert_row dbname table_name column_values s) = Normal RNone
         /\ stdout (world (snd (insert_row dbname table_name column_values s)))
            = stdout (world s)
                ++ ["Successfully switched to database '" +:+ dbname +:+ "'.";
                    "Row inserted into table '" +:+ table_name +:+ "'."])
  /\ (forall dbname table_name row_id,
         fst (delete_row dbname table_name row_id s) = Normal RNone
         /\ stdout (world (snd (delete_row dbname table_name row_id s)))
            = stdout (world s)
                ++ ["Successfully switched to database '" +:+ dbname +:+ "'.";
                    "Row with id " +:+ str row_id +:+ " deleted from table '"
                      +:+ table_name +:+ "'."])
  /\ (forall dbname table_name row_id update_data,
         fst (update_row dbname table_name row_id update_data s) = Normal RNone
         /\ stdout (world (snd (update_row dbname table_name row_id
                                  update_data s)))
            = stdout (world s)
                ++ ["Successfully switched to database '" +:+ dbname +:+ "'.";
                    "Row with id " +:+ str row_id +:+ " updated in table '"
                      +:+ table_name +:+ "'."])).
Proof.
  intros Hnone. split; [|intros Hfs; repeat split].
  - intros table_name columns.
    destruct s as [[u p h pt co cu] fr [cs ks out cl fs rw]]; simpl in *.
    destruct Hnone as [-> | ->]; [|destruct co]; reflexivity.
  - unfold add_column. rewrite add_column_query_eq. run_accepted s Hfs.
  - unfold add_column. rewrite add_column_query_eq. run_accepted s Hfs.
  - unfold insert_row. rewrite insert_query_eq. run_accepted s Hfs.
  - unfold insert_row. rewrite insert_query_eq. run_accepted s Hfs.
  - unfold delete_row. rewrite delete_query_eq. run_accepted s Hfs.
  - unfold delete_row. rewrite delete_query_eq. run_accepted s Hfs.
  - unfold update_row. rewrite update_query_eq. run_accepted s Hfs.
  - unfold update_row. rewrite update_query_eq. run_accepted s Hfs.
Qed.

Lemma methods_without_session_witness :
  (connection (self (boot [])) = None \/ cursor (self (boot [])) = None)
  /\ accepts 4 (faults (world (boot []))) = true
  /\ create_table "person" None (boot [])
     = (Normal RNone,
        mkMachine (self (boot [])) (frame (boot []))
          (set_stdout (fun l => l ++ ["Not connected to any database."])
             (world (boot [])))).
Proof.
  pose proof (methods_without_session (boot []) (or_introl eq_refl))
    as [Hct _].
  split; [left; reflexivity|]. split; [reflexivity|]. apply Hct.
Defined.

(** ** C10: keys and column names in the statements *)

Lemma append_assoc (s1 s2 s3 : string) :
  (s1 +:+ s2) +:+ s3 = s1 +:+ (s2 +:+ s3).
Proof.
  induction s1 as [|a s1 IH]; [reflexivity|].
  change (String a ((s1 +:+ s2) +:+ s3) = String a (s1 +:+ (s2 +:+ s3))).
  rewrite IH. reflexivity.
Qed.

Lemma occurs_in_here t post : occurs_in t (t +:+ post).
Proof. exists "", post. reflexivity. Qed.

Lemma occurs_in_app_l t s u : occurs_in t s -> occurs_in t (s +:+ u).
Proof.
  intros (pre & post & ->). exists pre, (post +:+ u).
  rewrite !append_assoc. reflexivity.
Qed.

Lemma occurs_in_app_r t s u : occurs_in t s -> occurs_in t (u +:+ s).
Proof.
  intros (pre & post & ->). exists (u +:+ pre), post.
  rewrite !append_assoc. reflexivity.
Qed.







(** * Further properties of the methods *)

(** ** What the methods return *)

Lemma returns_none_ret : returns_none (ret RNone).
Proof. intros s a H. simpl in H. congruence. Qed.

Lemma returns_none_bind {A} (m : M Machine A) (k : A -> M Machine pyret) :
  (forall a, returns_none (k a)) -> returns_none (bind m k).
Proof.
  intros Hk s a. unfold bind.
  destruct (m s) as [[x|e] s1]; [apply Hk|simpl; discriminate].
Qed.

Lemma returns_none_caught (body : M Machine pyret) s :
  returns_none body -> fst (try_except body print_error s) = Normal RNone.
Proof.
  intros Hb. unfold try_except. specialize (Hb s).
  destruct (body s) as [[a|e] s1]; simpl in *; [|reflexivity].
  rewrite (Hb a eq_refl). reflexivity.
Qed.

Ltac returns_none :=
  repeat
    first
      [ apply returns_none_ret
      | apply returns_none_bind; intros ?
      | match goal with
        | |- returns_none (match ?x with _ => _ end) => destruct x
        end ].

(** Whatever the driver does and whatever state the facade is in,
    [switch_database], [create_table], [add_column], [insert_row],
    [delete_row], [update_row] and [close_connection] return [None]: no
    exception leaves them.  (Not so the two maintenance methods, whose
    [finally] block can raise.) *)
Theorem session_methods_return_none (o : op) (s : Machine) :
  match o with
  | CreateDatabase _ | ListDatabases => True
  | _ => fst (run_op o s) = Normal RNone
  end.
Proof.
  destruct o; try exact I; unfold run_op.
  1-6: apply returns_none_caught;
       unfold switch_database, create_table, add_column, insert_row,
         delete_row, update_row;
       returns_none.
  destruct s as [[u p h pt [c|] [k|]] fr w]; reflexivity.
Qed.

(** ** The maintenance methods *)

Lemma first_columns_heads rows s :
  first_columns rows s
  = (match heads rows with
     | Some l => Normal l
     | None => Raised (IndexError "tuple index out of range")
     end, s).
Proof.
  induction rows as [|[|x db] rest IH]; simpl; try reflexivity.
  unfold bind. rewrite IH. destruct (heads rest); reflexivity.
Qed.

Lemma close_new_conn (cs : list ConnObj) d a :
  alter (fun o => mkConn (c_dbname o) (c_autocommit o) true) (length cs)
    (cs ++ [mkConn d a false])
  = cs ++ [mkConn d a true].
Proof. induction cs as [|x cs IH]; simpl; [reflexivity|]. f_equal. exact IH. Qed.

Lemma close_new_cursor (ks : list CursorObj) c :
  alter (fun o => mkCursor (k_conn o) true) (length ks)
    (ks ++ [mkCursor c false])
  = ks ++ [mkCursor c true].
Proof. induction ks as [|x ks IH]; simpl; [reflexivity|]. f_equal. exact IH. Qed.

(** [create_database] and [list_databases] return exactly when the driver
    grants both the connection and the cursor; then, whatever becomes of
    the statement and of the rows, the connection and the cursor they
    opened are closed when they return.  When the driver refuses either,
    both methods end in the [UnboundLocalError] of their [finally]
    block. *)
Theorem maintenance_methods_outcome dbname s :
  (accepts 2 (faults (world s)) = true ->
   fst (create_database dbname s) = Normal RNone
   /\ (exists r, fst (list_databases s) = Normal r)
   /\ conns (world (snd (create_database dbname s)))
      = conns (world s) ++ [mkConn "postgres" true true]
   /\ conns (world (snd (list_databases s)))
      = conns (world s) ++ [mkConn "postgres" false true]
   /\ cursors (world (snd (create_database dbname s)))
      = cursors (world s) ++ [mkCursor (length (conns (world s))) true]
   /\ cursors (world (snd (list_databases s)))
      = cursors (world s) ++ [mkCursor (length (conns (world s))) true])
  /\ (accepts 2 (faults (world s)) = false ->
      fst (create_database dbname s) = Raised (UnboundLocalError "cursor")
      /\ fst (list_databases s) = Raised (UnboundLocalError "cursor")).
Proof.
  split; intros Hfs.
  - destruct (create_database_releases_when_bound dbname s Hfs)
      as (H1 & H2 & H3).
    split; [exact H1|]. split; [|split; [exact H2|split; [|split; [exact H3|]]]].
    all: destruct s as [[u p h pt co cu] fr [cs ks out cl fs rw]];
      simpl in Hfs |- *;
      destruct fs as [|[m1|] [|[m2|] [|[m3|] [|[m4|] fs]]]];
      try discriminate Hfs; exec; rewrite ?first_columns_heads;
      try destruct (heads rw); simpl;
      rewrite ?close_new_conn, ?close_new_cursor;
      try reflexivity; eexists; reflexivity.
  - destruct s as [[u p h pt co cu] fr [cs ks out cl fs rw]];
      simpl in Hfs |- *.
    destruct fs as [|[m1|] [|[m2|] fs]]; try discriminate Hfs;
      split; exec; reflexivity.
Qed.

Lemma maintenance_methods_outcome_witness :
  accepts 2 (faults (world (boot []))) = true
  /\ accepts 2 (faults (world (boot [None; Some "out of memory"]))) = false
  /\ fst (create_database "new_db" (boot [])) = Normal RNone
  /\ fst (list_databases (boot [None; Some "out of memory"]))
     = Raised (UnboundLocalError "cursor").
Proof.
  split; [reflexivity|]. split; [reflexivity|]. split.
  - apply (maintenance_methods_outcome "new_db" (boot [])). reflexivity.
  - apply (maintenance_methods_outcome "new_db"
             (boot [None; Some "out of memory"])).
    reflexivity.
Defined.

(** When the driver raises nothing on the way, [list_databases] returns
    the first column of every row the server answered, in the server's
    order: the empty list for no row at all, which is not the [None] of a
    failure.  It prints nothing, leaves the facade alone and has closed
    its cursor and its connection. *)
Theorem list_databases_returns_names s names :
  accepts 4 (faults (world s)) = true ->
  heads (rows (world s)) = Some names ->
  list_databases s
  = (Normal (RList names),
     mkMachine (self s) (frame s)
       (mkWorld
          (conns (world s) ++ [mkConn "postgres" false true])
          (cursors (world s) ++ [mkCursor (length (conns (world s))) true])
          (stdout (world s))
          (calls (world s)
             ++ [CConnect "postgres" (user (self s)) (password (self s))
                   (host (self s)) (port (self s));
                 CCursor (length (conns (world s)));
                 CExecute (length (cursors (world s)))
                   (QStr "SELECT datname FROM pg_database WHERE datistemplate = false;")
                   [];
                 CFetchall (length (cursors (world s)));
                 CCursorClose (length (cursors (world s)));
                 CConnectionClose (length (conns (world s)))])
          (drop 4 (faults (world s)))
          (rows (world s)))).
Proof.
  destruct s as [[u p h pt co cu] fr [cs ks out cl fs rw]]; simpl.
  intros Hfs Hrows.
  destruct fs as [|[m1|] [|[m2|] [|[m3|] [|[m4|] fs]]]];
    try discriminate Hfs; exec; rewrite first_columns_heads, Hrows; simpl;
    rewrite close_new_conn, close_new_cursor, <- ?app_assoc; reflexivity.
Qed.

Lemma list_databases_returns_names_witness :
  accepts 4 (faults (world (boot []))) = true
  /\ heads (rows (world (boot []))) = Some ["postgres"; "new_db"]
  /\ fst (list_databases (boot [])) = Normal (RList ["postgres"; "new_db"]).
Proof.
  split; [reflexivity|]. split; [reflexivity|].
  rewrite (list_databases_returns_names (boot []) ["postgres"; "new_db"]
             eq_refl eq_refl).
  reflexivity.
Defined.

(** [list_databases] tells a failure after its cursor is bound only by
    printing it: when the statement or the fetch is refused it prints the
    error and returns [None], having closed cursor and connection. *)
Theorem list_databases_failure_returns_none s msg :
  (exists rest, faults (world s) = None :: None :: Some msg :: rest)
  \/ (exists rest, faults (world s) = None :: None :: None :: Some msg :: rest) ->
  fst (list_databases s) = Normal RNone
  /\ stdout (world (snd (list_databases s)))
     = stdout (world s) ++ ["Error: " +:+ msg]
  /\ conns (world (snd (list_databases s)))
     = conns (world s) ++ [mkConn "postgres" false true].
Proof.
  destruct s as [[u p h pt co cu] fr [cs ks out cl fs rw]]; simpl.
  intros [[rest ->]|[rest ->]]; exec;
    rewrite close_new_conn; repeat split; reflexivity.
Qed.

Lemma list_databases_failure_returns_none_witness :
  fst (list_databases (boot [None; None; Some "permission denied"]))
  = Normal RNone.
Proof.
  apply (list_databases_failure_returns_none
           (boot [None; None; Some "permission denied"]) "permission denied").
  left. eexists. reflexivity.
Defined.

(** Neither maintenance method touches the facade, whatever happens: the
    stored session is after the call what it was before. *)
Theorem maintenance_methods_keep_facade dbname s :
  self (snd (create_database dbname s)) = self s
  /\ self (snd (list_databases s)) = self s
  /\ frame (snd (create_database dbname s)) = frame s
  /\ frame (snd (list_databases s)) = frame s.
Proof.
  assert (H1 : keeps same_self (create_database dbname)).
  { unfold create_database, connect_as_self, close_locals, print_error, print.
    same_self. }
  assert (H2 : keeps same_self list_databases).
  { unfold list_databases, connect_as_self, close_locals, print_error, print.
    same_self. }
  split; [apply H1|]. split; [apply H2|].
  unfold create_database, list_databases, method.
  split; match goal with
         | |- context [try_finally ?b ?f ?s0] => destruct (try_finally b f s0)
         end; reflexivity.
Qed.

(** ** The session methods when something is refused *)

(** [open_session H] brings the facts of a [live_session] into the form
    the run of a method asks for them in. *)
Ltac open_session H :=
  destruct H as (?Hc & ?Hk & ?Hco & ?Hko & ?Hkc);
  unfold psycopg2.conn_is_open, psycopg2.cursor_is_open,
    psycopg2.cursor_conn in *;
  simpl in *; subst.

Ltac use_session :=
  unfold psycopg2.conn_is_open, psycopg2.cursor_is_open,
    psycopg2.cursor_conn;
  simpl;
  repeat match goal with
         | H : _ = _ |- _ => rewrite H; simpl
         end.

(** The four methods that switch first, unfolded and with their statement
    computed. *)
Ltac switching_op o Hq :=
  destruct o; try discriminate; simpl in *;
  rewrite ?add_column_query_eq, ?insert_query_eq, ?delete_query_eq,
    ?update_query_eq in Hq;
  injection Hq as <-;
  unfold add_column, insert_row, delete_row, update_row;
  rewrite ?add_column_query_eq, ?insert_query_eq, ?delete_query_eq,
    ?update_query_eq.

(** A refused connection does not stop [add_column], [insert_row],
    [delete_row] or [update_row]: [switch_database] prints the error and
    returns, the facade still holds its earlier session, and the method
    executes and commits its statement there, in the database the facade
    was connected to before and not in [dbname], and prints its success
    line. *)
Theorem refused_switch_runs_on_old_session o dbname q s c k msg rest :
  target_database o = Some dbname ->
  session_statement o = Some q ->
  live_session s c k ->
  faults (world s) = Some msg :: rest ->
  accepts 2 rest = true ->
  run_op o s
  = (Normal RNone,
     mkMachine (self s) (frame s)
       (mkWorld (conns (world s)) (cursors (world s))
          (stdout (world s) ++ ["Error: " +:+ msg; success_line o])
          (calls (world s)
             ++ [CConnect dbname (user (self s)) (password (self s))
                   (host (self s)) (port (self s));
                 CExecute k (QSql q) (session_params o);
                 CCommit c])
          (drop 2 rest) (rows (world s)))).
Proof.
  intros Ht Hq Hlive Hfs Hrest.
  destruct s as [[u p h pt co cu] fr [cs ks out cl fs rw]].
  open_session Hlive.
  switching_op o Hq.
  all: injection Ht as ->;
    destruct rest as [|[m1|] [|[m2|] rest]]; try discriminate Hrest;
    exec; use_session; rewrite <- ?app_assoc; reflexivity.
Qed.

Lemma refused_switch_runs_on_old_session_witness :
  live_session (switched [None; None; Some "no such database"]) 0 0
  /\ stdout (world (snd (insert_row "other_db" "person" [("name", PStr "a")]
                           (switched [None; None; Some "no such database"]))))
     = ["Successfully switched to database 'new_db'.";
        "Error: no such database"; "Row inserted into table 'person'."].
Proof.
  split; [repeat split; reflexivity|].
  pose proof (refused_switch_runs_on_old_session
                (InsertRow "other_db" "person" [("name", PStr "a")])
                "other_db" _ (switched [None; None; Some "no such database"])
                0 0 "no such database" []
                eq_refl (insert_query_eq _ _)
                ltac:(repeat split; reflexivity) eq_refl eq_refl) as H.
  unfold run_op in H. rewrite H. reflexivity.
Defined.

(** With no cursor stored and the connection refused, the four methods
    that switch first print the driver's error, go on, reach
    [self.cursor.execute] with [self.cursor] being [None] and print the
    [AttributeError] of that; nothing is executed, the facade is what it
    was, and [None] is returned. *)
Theorem refused_switch_without_session o dbname s msg rest :
  target_database o = Some dbname ->
  cursor (self s) = None ->
  faults (world s) = Some msg :: rest ->
  run_op o s
  = (Normal RNone,
     mkMachine (self s) (frame s)
       (mkWorld (conns (world s)) (cursors (world s))
          (stdout (world s)
             ++ ["Error: " +:+ msg;
                 "Error: 'NoneType' object has no attribute 'execute'"])
          (calls (world s)
             ++ [CConnect dbname (user (self s)) (password (self s))
                   (host (self s)) (port (self s))])
          rest (rows (world s)))).
Proof.
  intros Ht Hk Hfs.
  destruct s as [[u p h pt co cu] fr [cs ks out cl fs rw]]; simpl in *; subst.
  destruct o; try discriminate; simpl in *; injection Ht as ->;
    unfold add_column, insert_row, delete_row, update_row;
    rewrite ?add_column_query_eq, ?insert_query_eq, ?delete_query_eq,
      ?update_query_eq;
    exec; reflexivity.
Qed.

Lemma refused_switch_without_session_witness :
  stdout (world (snd (delete_row "new_db" "person" (PInt 1)
                        (boot [Some "connection refused"]))))
  = ["Error: connection refused";
     "Error: 'NoneType' object has no attribute 'execute'"].
Proof.
  pose proof (refused_switch_without_session
                (DeleteRow "new_db" "person" (PInt 1)) "new_db"
                (boot [Some "connection refused"]) "connection refused" []
                eq_refl eq_refl eq_refl) as H.
  unfold run_op in H. rewrite H. reflexivity.
Defined.

(** When the driver grants the connection and the cursor but refuses the
    statement, the four methods print the error and return without ever
    calling [commit]; no success line is printed. *)
Theorem refused_statement_is_not_committed o dbname q s msg rest :
  target_database o = Some dbname ->
  session_statement o = Some q ->
  faults (world s) = None :: None :: Some msg :: rest ->
  fst (run_op o s) = Normal RNone
  /\ calls (world (snd (run_op o s)))
     = calls (world s)
         ++ [CConnect dbname (user (self s)) (password (self s))
               (host (self s)) (port (self s));
             CCursor (length (conns (world s)));
             CExecute (length (cursors (world s))) (QSql q) (session_params o)]
  /\ stdout (world (snd (run_op o s)))
     = stdout (world s)
         ++ ["Successfully switched to database '" +:+ dbname +:+ "'.";
             "Error: " +:+ msg].
Proof.
  intros Ht Hq Hfs.
  destruct s as [[u p h pt co cu] fr [cs ks out cl fs rw]]; simpl in Hfs;
    subst fs.
  switching_op o Hq.
  all: injection Ht as ->; exec; repeat split; reflexivity.
Qed.

Lemma refused_statement_is_not_committed_witness :
  calls (world (snd (update_row "new_db" "person" (PInt 2)
                       [("name", PStr "Jane Doe")]
                       (boot [None; None; Some "no such table"]))))
  = [CConnect "new_db" "postgres" "postgres" "localhost" "5432"; CCursor 0;
     CExecute 0
       (QSql (sql.Composed
                [sql.SQL "UPDATE "; sql.Identifier "person"; sql.SQL " SET ";
                 sql.SQL "name = %s"; sql.SQL " WHERE id = %s"]))
       [PStr "Jane Doe"; PInt 2]].
Proof.
  pose proof (refused_statement_is_not_committed
                (UpdateRow "new_db" "person" (PInt 2)
                   [("name", PStr "Jane Doe")])
                "new_db" _ (boot [None; None; Some "no such table"])
                "no such table" [] eq_refl (update_query_eq _ _) eq_refl)
    as (_ & H & _).
  exact H.
Defined.

(** ** [create_table] on the stored session *)

(** With a live session stored, [create_table] opens no connection: it
    executes its statement on the stored cursor and commits on the stored
    connection, and when the driver refuses the statement it prints the
    error and does not commit. *)
Theorem create_table_uses_stored_session table_name columns q s c k :
  create_table_query table_name columns = Some q ->
  live_session s c k ->
  (accepts 2 (faults (world s)) = true ->
   create_table table_name columns s
   = (Normal RNone,
      mkMachine (self s) (frame s)
        (mkWorld (conns (world s)) (cursors (world s))
           (stdout (world s)
              ++ ["Table '" +:+ table_name +:+ "' created successfully!"])
           (calls (world s) ++ [CExecute k (QSql q) []; CCommit c])
           (drop 2 (faults (world s))) (rows (world s)))))
  /\ (forall msg rest,
         faults (world s) = Some msg :: rest ->
         create_table table_name columns s
         = (Normal RNone,
            mkMachine (self s) (frame s)
              (mkWorld (conns (world s)) (cursors (world s))
                 (stdout (world s) ++ ["Error: " +:+ msg])
                 (calls (world s) ++ [CExecute k (QSql q) []])
                 rest (rows (world s))))).
Proof.
  intros Hq Hlive.
  destruct s as [[u p h pt co cu] fr [cs ks out cl fs rw]].
  open_session Hlive.
  unfold create_table. rewrite Hq. split.
  - intros Hfs.
    destruct fs as [|[m1|] [|[m2|] fs]]; try discriminate Hfs;
      exec; use_session; rewrite <- ?app_assoc; reflexivity.
  - intros msg rest ->. exec; use_session. reflexivity.
Qed.

Lemma create_table_uses_stored_session_witness :
  live_session (switched []) 0 0
  /\ accepts 2 (faults (world (switched []))) = true
  /\ calls (world (snd (create_table "person" None (switched []))))
     = calls (world (switched []))
         ++ [CExecute 0
               (QSql (sql.Composed
                        [sql.SQL "CREATE TABLE "; sql.Identifier "person";
                         sql.SQL " ()"]))
               [];
             CCommit 0].
Proof.
  pose proof (create_table_uses_stored_session "person" None _ (switched [])
                0 0 (create_table_query_eq _ _)
                ltac:(repeat split; reflexivity)) as [H _].
  split; [repeat split; reflexivity|]. split; [reflexivity|].
  rewrite (H eq_refl). reflexivity.
Defined.

(** ** A switch that gets its connection but not its cursor *)

(** When [connect] succeeds and [connection.cursor()] raises,
    [switch_database] has already replaced [self.connection] and leaves
    [self.cursor] as it was: the facade then holds the new connection
    together with a cursor of the old one.  A [create_table] that follows
    executes its statement on the old connection's cursor and commits on
    the new connection. *)
Theorem half_switch_mixes_sessions dbname table_name columns q s c k msg rest :
  create_table_query table_name columns = Some q ->
  live_session s c k ->
  faults (world s) = None :: Some msg :: rest ->
  accepts 2 rest = true ->
  let s1 := snd (switch_database dbname s) in
  let new := length (conns (world s)) in
  connection (self s1) = Some new
  /\ cursor (self s1) = Some k
  /\ psycopg2.cursor_conn k (world s1) = Some c
  /\ c <> new
  /\ calls (world (snd (create_table table_name columns s1)))
     = calls (world s1) ++ [CExecute k (QSql q) []; CCommit new].
Proof.
  intros Hq Hlive Hfs Hrest. cbv zeta.
  rewrite (switch_database_no_cursor _ _ _ _ Hfs).
  destruct s as [[u p h pt co cu] fr [cs ks out cl fs rw]].
  destruct Hlive as (Hc & Hk & Hco & Hko & Hkc).
  unfold psycopg2.conn_is_open, psycopg2.cursor_is_open,
    psycopg2.cursor_conn in *; simpl in *; subst.
  assert (Hlt : c < length cs).
  { destruct (cs !! c) eqn:E; [|discriminate]. eapply lookup_lt_Some, E. }
  split; [reflexivity|]. split; [reflexivity|]. split; [exact Hkc|].
  split; [lia|].
  unfold create_table. rewrite Hq.
  destruct rest as [|[m1|] [|[m2|] rest]]; try discriminate Hrest;
    exec;
    unfold psycopg2.conn_is_open, psycopg2.cursor_is_open,
      psycopg2.cursor_conn; simpl;
    rewrite Hko; simpl; rewrite Hkc; simpl;
    rewrite (lookup_app_l cs _ c Hlt), Hco; simpl;
    rewrite (list_lookup_middle cs [] _ (length cs) eq_refl); simpl;
    rewrite <- ?app_assoc; reflexivity.
Qed.

Lemma half_switch_mixes_sessions_witness :
  live_session (switched [None; None; None; Some "out of memory"]) 0 0
  /\ connection
       (self (snd (switch_database "postgres"
                     (switched [None; None; None; Some "out of memory"]))))
     = Some 1
  /\ cursor
       (self (snd (switch_database "postgres"
                     (switched [None; None; None; Some "out of memory"]))))
     = Some 0.
Proof.
  pose proof (half_switch_mixes_sessions "postgres" "person" None _
                (switched [None; None; None; Some "out of memory"]) 0 0
                "out of memory" []
                (create_table_query_eq _ _)
                ltac:(repeat split; reflexivity) eq_refl eq_refl)
    as (H1 & H2 & _).
  split; [repeat split; reflexivity|]. split; [exact H1|exact H2].
Defined.

(** ** What the session methods never do: close *)

Lemma nothing_closed_refl w : nothing_closed w w.
Proof.
  split; [auto|]. split; [auto|]. exists []. split; [|reflexivity].
  symmetry. apply app_nil_r.
Qed.

Lemma nothing_closed_trans w1 w2 w3 :
  nothing_closed w1 w2 -> nothing_closed w2 w3 -> nothing_closed w1 w3.
Proof.
  intros (Hc1 & Hk1 & m1 & E1 & N1) (Hc2 & Hk2 & m2 & E2 & N2).
  split; [auto|]. split; [auto|]. exists (m1 ++ m2). split.
  - rewrite E2, E1. symmetry. apply app_assoc.
  - rewrite existsb_app, N1, N2. reflexivity.
Qed.

(** One more call that is no [close()], and objects only added. *)
Lemma nothing_closed_step w cs' ks' out' cl' fs' rw' more :
  (forall i o, conns w !! i = Some o -> cs' !! i = Some o) ->
  (forall i o, cursors w !! i = Some o -> ks' !! i = Some o) ->
  cl' = calls w ++ more ->
  existsb is_close more = false ->
  nothing_closed w (mkWorld cs' ks' out' cl' fs' rw').
Proof. intros Hc Hk -> Hn. split; [exact Hc|]. split; [exact Hk|]. eauto. Qed.

Ltac nothing_closed_driver :=
  unfold keeps; intros [cs ks out cl fs rw];
  unfold psycopg2.connect, psycopg2.cursor, psycopg2.execute,
    psycopg2.fetchall, psycopg2.commit, psycopg2.require_cursor,
    psycopg2.require_conn, psycopg2.log, psycopg2.tick, bind, gets, modify,
    raise, ret, set_calls, set_conns, set_cursors, set_stdout, set_faults;
  simpl;
  repeat match goal with
         | |- context [psycopg2.cursor_is_open ?k ?w] =>
             destruct (psycopg2.cursor_is_open k w); simpl
         | |- context [psycopg2.cursor_conn ?k ?w] =>
             destruct (psycopg2.cursor_conn k w); simpl
         | |- context [psycopg2.conn_is_open ?c ?w] =>
             destruct (psycopg2.conn_is_open c w); simpl
         end;
  destruct fs as [|[?|] ?]; simpl;
  (eapply nothing_closed_step; simpl;
   [ intros; first [assumption | apply lookup_app_l_Some; assumption]
   | intros; first [assumption | apply lookup_app_l_Some; assumption]
   | rewrite <- ?app_assoc; reflexivity
   | reflexivity ]).

Lemma nothing_closed_connect d u p h pt :
  keeps nothing_closed (psycopg2.connect d u p h pt).
Proof. nothing_closed_driver. Qed.

Lemma nothing_closed_cursor c : keeps nothing_closed (psycopg2.cursor c).
Proof. nothing_closed_driver. Qed.

Lemma nothing_closed_execute k q ps :
  keeps nothing_closed (psycopg2.execute k q ps).
Proof. nothing_closed_driver. Qed.

Lemma nothing_closed_commit c : keeps nothing_closed (psycopg2.commit c).
Proof. nothing_closed_driver. Qed.

Lemma nothing_closed_print f : keeps nothing_closed (modify (set_stdout f)).
Proof.
  unfold keeps. intros [cs ks out cl fs rw]. simpl.
  eapply (nothing_closed_step _ _ _ _ _ _ _ []); simpl; auto.
  symmetry. apply app_nil_r.
Qed.

Lemma nothing_closed_m_refl s : nothing_closed_m s s.
Proof. apply nothing_closed_refl. Qed.

Lemma nothing_closed_m_trans s1 s2 s3 :
  nothing_closed_m s1 s2 -> nothing_closed_m s2 s3 -> nothing_closed_m s1 s3.
Proof. apply nothing_closed_trans. Qed.

Lemma nothing_closed_m_frame s1 s2 t1 t2 :
  self s1 = self s2 -> world s1 = world s2 ->
  self t1 = self t2 -> world t1 = world t2 ->
  nothing_closed_m s1 t1 -> nothing_closed_m s2 t2.
Proof. unfold nothing_closed_m. congruence. Qed.

Lemma nothing_closed_on_world {A} (m : M World A) :
  keeps nothing_closed m -> keeps nothing_closed_m (on_world m).
Proof.
  intros Hm s. unfold on_world, nothing_closed_m. specialize (Hm (world s)).
  destruct (m (world s)). exact Hm.
Qed.

Lemma nothing_closed_set_self f : keeps nothing_closed_m (modify (set_self f)).
Proof. intros s. apply nothing_closed_refl. Qed.

Ltac nothing_closed :=
  keeps_by nothing_closed_m_refl nothing_closed_m_trans nothing_closed_m_frame
    ltac:(first [ apply nothing_closed_set_self
                | apply nothing_closed_on_world;
                  first [ apply nothing_closed_connect
                        | apply nothing_closed_cursor
                        | apply nothing_closed_execute
                        | apply nothing_closed_commit
                        | apply nothing_closed_print ] ]).




(** ** The four switching methods when all goes well *)

(** When the driver raises nothing for its next four answers,
    [add_column], [insert_row], [delete_row] and [update_row] do this and
    nothing else: open a new connection to [dbname] and a cursor on it,
    store both in the facade, execute the statement with its parameters
    on that cursor, commit on that connection, and print the line of the
    switch and their own.  The connection stays open. *)
Theorem switching_method_run o dbname q s :
  target_database o = Some dbname ->
  session_statement o = Some q ->
  accepts 4 (faults (world s)) = true ->
  let c := length (conns (world s)) in
  let k := length (cursors (world s)) in
  run_op o s
  = (Normal RNone,
     mkMachine
       (mkManager (user (self s)) (password (self s)) (host (self s))
          (port (self s)) (Some c) (Some k))
       (frame s)
       (mkWorld
          (conns (world s) ++ [mkConn dbname false false])
          (cursors (world s) ++ [mkCursor c false])
          (stdout (world s)
             ++ ["Successfully switched to database '" +:+ dbname +:+ "'.";
                 success_line o])
          (calls (world s)
             ++ [CConnect dbname (user (self s)) (password (self s))
                   (host (self s)) (port (self s));
                 CCursor c;
                 CExecute k (QSql q) (session_params o);
                 CCommit c])
          (drop 4 (faults (world s)))
          (rows (world s)))).
Proof.
  intros Ht Hq Hfs.
  destruct s as [[u p h pt co cu] fr [cs ks out cl fs rw]]; simpl in Hfs.
  switching_op o Hq.
  all: injection Ht as ->;
    destruct fs as [|[?|] [|[?|] [|[?|] [|[?|] fs]]]]; try discriminate Hfs;
    exec; reflexivity.
Qed.

Lemma switching_method_run_witness :
  accepts 4 (faults (world (boot []))) = true
  /\ connection
       (self (snd (add_column "new_db" "person" "email" "VARCHAR(100)"
                     (boot []))))
     = Some 0.
Proof.
  pose proof (switching_method_run
                (AddColumn "new_db" "person" "email" "VARCHAR(100)")
                "new_db" _ (boot []) eq_refl (add_column_query_eq _ _ _)
                eq_refl) as H.
  unfold run_op in H. cbv zeta in H. rewrite H.
  split; reflexivity.
Defined.




(** ** What [close_connection] closes *)

(** [close_connection] closes the stored cursor and the stored connection
    and no other object: the connections that earlier switches replaced
    are as they were. *)
Theorem close_connection_closes_stored_only s c k :
  connection (self s) = Some c ->
  cursor (self s) = Some k ->
  let s' := snd (close_connection s) in
  psycopg2.conn_is_open c (world s') = false
  /\ psycopg2.cursor_is_open k (world s') = false
  /\ (forall i, i <> c -> conns (world s') !! i = conns (world s) !! i)
  /\ (forall i, i <> k -> cursors (world s') !! i = cursors (world s) !! i)
  /\ calls (world s') = calls (world s) ++ [CCursorClose k; CConnectionClose c]
  /\ stdout (world s') = stdout (world s) ++ ["Connection closed."].
Proof.
  destruct s as [[u p h pt co cu] fr [cs ks out cl fs rw]]; simpl.
  intros -> ->. exec.
  unfold psycopg2.conn_is_open, psycopg2.cursor_is_open; simpl.
  rewrite !list_lookup_alter_eq.
  split; [destruct (cs !! c); reflexivity|].
  split; [destruct (ks !! k); reflexivity|].
  split; [intros i Hi; apply list_lookup_alter_ne; congruence|].
  split; [intros i Hi; apply list_lookup_alter_ne; congruence|].
  split; reflexivity.
Qed.

Lemma close_connection_closes_stored_only_witness :
  connection (self (run_ops [SwitchDatabase "postgres"] (switched []))) = Some 1
  /\ conns (world (snd (close_connection
                          (run_ops [SwitchDatabase "postgres"] (switched [])))))
       !! 0
     = Some (mkConn "new_db" false false).
Proof.
  split; [reflexivity|].
  pose proof (close_connection_closes_stored_only
                (run_ops [SwitchDatabase "postgres"] (switched [])) 1 1
                eq_refl eq_refl) as (_ & _ & H & _).
  rewrite (H 0); [reflexivity|discriminate].
Defined.

(** ** The text of the statements *)

Lemma append_nil_r (s : string) : s +:+ "" = s.
Proof.
  induction s as [|a s IH]; [reflexivity|].
  change (String a (s +:+ "") = String a s). rewrite IH. reflexivity.
Qed.

Lemma concat_has_item sep (x : string) (l : list string) :
  x ∈ l -> occurs_in x (String.concat sep l).
Proof.
  induction l as [|y l IH]; intros Hin.
  - apply elem_of_nil in Hin. destruct Hin.
  - apply elem_of_cons in Hin. destruct l as [|z l].
    + destruct Hin as [->|Hin]; [|apply elem_of_nil in Hin; destruct Hin].
      exists "", "". symmetry. apply (append_nil_r y).
    + change (occurs_in x (y +:+ sep +:+ String.concat sep (z :: l))).
      destruct Hin as [->|Hin].
      * apply occurs_in_here.
      * apply occurs_in_app_r, occurs_in_app_r, IH, Hin.
Qed.

(** [create_table] puts every column into its statement as the name, a
    space and the type, exactly as given: neither is quoted or checked,
    and the whole text is ["CREATE TABLE "], the quoted table name and
    the column list between brackets. *)
Theorem create_table_columns_verbatim table_name columns name type adapt :
  (name, type) ∈ columns ->
  exists q,
    create_table_query table_name (Some columns) = Some q
    /\ sql.as_string adapt q
       = "CREATE TABLE " +:+ sql.quote_ident table_name +:+ " ("
           +:+ columns_query columns +:+ ")"
    /\ occurs_in (name +:+ " " +:+ type) (sql.as_string adapt q).
Proof.
  intros Hin.
  destruct columns as [|col cols]; [apply elem_of_nil in Hin; destruct Hin|].
  eexists. split; [apply create_table_query_eq|]. split; [reflexivity|].
  change (occurs_in (name +:+ " " +:+ type)
            ("CREATE TABLE " +:+ sql.quote_ident table_name +:+ " ("
               +:+ columns_query (col :: cols) +:+ ")" +:+ "")).
  apply occurs_in_app_r, occurs_in_app_r, occurs_in_app_r, occurs_in_app_l.
  unfold columns_query. apply concat_has_item.
  apply list_elem_of_In.
  apply (in_map (fun c => fst c +:+ " " +:+ snd c) _ (name, type)).
  apply list_elem_of_In, Hin.
Qed.

Lemma create_table_columns_verbatim_witness :
  exists q,
    create_table_query "person"
      (Some [("id", "SERIAL PRIMARY KEY"); ("name", "VARCHAR(100)")]) = Some q
    /\ sql.as_string str q
       = "CREATE TABLE " +:+ sql.quote_ident "person" +:+ " ("
           +:+ columns_query
                 [("id", "SERIAL PRIMARY KEY"); ("name", "VARCHAR(100)")]
           +:+ ")"
    /\ occurs_in ("name" +:+ " " +:+ "VARCHAR(100)") (sql.as_string str q).
Proof.
  apply (create_table_columns_verbatim "person"
           [("id", "SERIAL PRIMARY KEY"); ("name", "VARCHAR(100)")]
           "name" "VARCHAR(100)" str).
  apply list_elem_of_further, list_elem_of_here.
Defined.

(** When the driver grants the connection and the cursor, each of the
    four switching methods hands its statement and its parameters to the
    new cursor, whatever becomes of them there. *)
Lemma switching_method_executes o dbname q s :
  target_database o = Some dbname ->
  session_statement o = Some q ->
  accepts 2 (faults (world s)) = true ->
  CExecute (length (cursors (world s))) (QSql q) (session_params o)
    ∈ calls (world (snd (run_op o s))).
Proof.
  intros Ht Hq Hfs.
  assert (Hk : forall d, cursor (self (snd (switch_database d s)))
                         = Some (length (cursors (world s)))).
  { intros d. rewrite (switch_database_accepted _ _ Hfs). reflexivity. }
  switching_op o Hq.
  all: rewrite after_switch_database;
    match goal with
    | |- context [try_except
                    (bind (built (Some ?q0)) (fun q =>
                     bind (execute_and_commit q ?ps) (fun _ =>
                     bind (print ?line) (fun _ => ret RNone))))
                    print_error ?s1] =>
        destruct (statement_calls (Some q0) q0 ps line s1 _ eq_refl (Hk _))
          as [more H]
    end;
    rewrite H; apply elem_of_app; right; apply elem_of_cons; left;
    reflexivity.
Qed.

(** [add_column] quotes the table and the column name and appends the
    type as it was given; [delete_row] sends a text in which the row id
    does not occur, the id being its one parameter. *)
Theorem add_column_and_delete_row_text
    dbname table_name column_name column_type row_id adapt s :
  accepts 2 (faults (world s)) = true ->
  exists qa qd,
    sql.as_string adapt qa
    = "ALTER TABLE " +:+ sql.quote_ident table_name +:+ " ADD COLUMN "
        +:+ sql.quote_ident column_name +:+ " " +:+ column_type
    /\ sql.as_string adapt qd
       = "DELETE FROM " +:+ sql.quote_ident table_name +:+ " WHERE id = %s"
    /\ CExecute (length (cursors (world s))) (QSql qa) []
         ∈ calls (world (snd (add_column dbname table_name column_name
                                column_type s)))
    /\ CExecute (length (cursors (world s))) (QSql qd) [row_id]
         ∈ calls (world (snd (delete_row dbname table_name row_id s))).
Proof.
  intros Hfs. do 2 eexists.
  split; [|split; [|split]].
  3: exact (switching_method_executes
              (AddColumn dbname table_name column_name column_type)
              dbname _ s eq_refl (add_column_query_eq _ _ _) Hfs).
  3: exact (switching_method_executes
              (DeleteRow dbname table_name row_id)
              dbname _ s eq_refl (delete_query_eq _) Hfs).
  - simpl. rewrite append_nil_r. reflexivity.
  - reflexivity.
Qed.

Lemma add_column_and_delete_row_text_witness :
  accepts 2 (faults (world (boot []))) = true
  /\ exists qa qd,
      sql.as_string str qa
      = "ALTER TABLE " +:+ sql.quote_ident "person" +:+ " ADD COLUMN "
          +:+ sql.quote_ident "email" +:+ " " +:+ "TEXT"
      /\ sql.as_string str qd
         = "DELETE FROM " +:+ sql.quote_ident "person" +:+ " WHERE id = %s"
      /\ CExecute (length (cursors (world (boot [])))) (QSql qa) []
           ∈ calls (world (snd (add_column "new_db" "person" "email" "TEXT"
                                  (boot []))))
      /\ CExecute (length (cursors (world (boot [])))) (QSql qd) [PInt 7]
           ∈ calls (world (snd (delete_row "new_db" "person" (PInt 7)
                                  (boot [])))).
Proof.
  split; [reflexivity|].
  apply (add_column_and_delete_row_text "new_db" "person" "email" "TEXT"
           (PInt 7) str (boot []) eq_refl).
Defined.

(** Neither [insert_row] nor [update_row] looks at whether its mapping is
    empty: with an empty mapping, and the driver granting the connection,
    the texts ["INSERT INTO t () VALUES ()"] and
    ["UPDATE t SET  WHERE id = %s"] (with the quoted table name for [t])
    are handed to the cursor all the same. *)
Theorem empty_mapping_is_executed dbname table_name row_id adapt s :
  accepts 2 (faults (world s)) = true ->
  exists qi qu,
    sql.as_string adapt qi
    = "INSERT INTO " +:+ sql.quote_ident table_name +:+ " () VALUES ()"
    /\ sql.as_string adapt qu
       = "UPDATE " +:+ sql.quote_ident table_name +:+ " SET  WHERE id = %s"
    /\ CExecute (length (cursors (world s))) (QSql qi) []
         ∈ calls (world (snd (insert_row dbname table_name [] s)))
    /\ CExecute (length (cursors (world s))) (QSql qu) [row_id]
         ∈ calls (world (snd (update_row dbname table_name row_id [] s))).
Proof.
  intros Hfs. do 2 eexists.
  split; [|split; [|split]].
  3: exact (switching_method_executes (InsertRow dbname table_name [])
              dbname _ s eq_refl (insert_query_eq _ _) Hfs).
  3: exact (switching_method_executes (UpdateRow dbname table_name row_id [])
              dbname _ s eq_refl (update_query_eq _ _) Hfs).
  - reflexivity.
  - reflexivity.
Qed.

Lemma empty_mapping_is_executed_witness :
  accepts 2 (faults (world (boot []))) = true
  /\ exists qi qu,
      sql.as_string str qi
      = "INSERT INTO " +:+ sql.quote_ident "person" +:+ " () VALUES ()"
      /\ sql.as_string str qu
         = "UPDATE " +:+ sql.quote_ident "person" +:+ " SET  WHERE id = %s"
      /\ CExecute (length (cursors (world (boot [])))) (QSql qi) []
           ∈ calls (world (snd (insert_row "new_db" "person" [] (boot []))))
      /\ CExecute (length (cursors (world (boot [])))) (QSql qu) [PInt 1]
           ∈ calls (world (snd (update_row "new_db" "person" (PInt 1) []
                                  (boot [])))).
Proof.
  split; [reflexivity|].
  apply (empty_mapping_is_executed "new_db" "person" (PInt 1) str (boot [])
           eq_refl).
Defined.

(** ** The example usage *)


(** [exec] without its last step, which would re-bracket the lists of
    objects that later lookups go by. *)
Ltac exec_on :=
  unfold create_database, list_databases, switch_database, create_table,
    add_column, insert_row, delete_row, update_row, close_connection,
    execute_and_commit, connect_as_self, close_locals, print_error, print,
    method, local, getattr, built, try_except, try_finally, on_world,
    psycopg2.connect, psycopg2.set_autocommit, psycopg2.cursor,
    psycopg2.execute, psycopg2.fetchall, psycopg2.commit,
    psycopg2.cursor_close, psycopg2.connection_close,
    psycopg2.require_cursor, psycopg2.require_conn, psycopg2.log,
    psycopg2.tick, bind, gets, modify, raise, ret,
    set_self, set_frame, set_calls, set_conns, set_cursors, set_stdout,
    set_faults;
  simpl;
  repeat
    (first [ rewrite conn_is_open_new
           | rewrite cursor_is_open_new
           | rewrite cursor_conn_new
           | rewrite conn_is_open_autocommit ];
     simpl).



(** The example usage does not survive a failing [list_databases].  When
    the driver refuses the connection, the [UnboundLocalError] of the
    method ends the script before ["Databases:"] is printed; when the
    statement or the fetch is refused, [list_databases] returns [None],
    ["Databases:"] is printed and the [for] loop over [None] ends the
    script with a [TypeError].  Either way no session is ever opened. *)
Theorem example_usage_stops_when_listing_fails w msg :
  ((exists rest, faults w = Some msg :: rest) ->
   fst (example_usage w) = Uncaught (UnboundLocalError "cursor")
   /\ stdout (world (snd (example_usage w)))
      = stdout w ++ ["Error: " +:+ msg]
   /\ self (snd (example_usage w)) = db_manager)
  /\ ((exists rest, faults w = None :: None :: Some msg :: rest)
      \/ (exists rest, faults w = None :: None :: None :: Some msg :: rest) ->
      fst (example_usage w)
      = UncaughtTypeError "'NoneType' object is not iterable"
      /\ stdout (world (snd (example_usage w)))
         = stdout w ++ ["Error: " +:+ msg; "Databases:"]
      /\ self (snd (example_usage w)) = db_manager).
Proof.
  destruct w as [cs ks out cl fs rw]; simpl. split.
  - intros [rest ->]. unfold example_usage. exec_on.
    repeat split; reflexivity.
  - intros [[rest ->]|[rest ->]]; unfold example_usage; exec_on;
      rewrite <- ?app_assoc; repeat split; reflexivity.
Qed.

Lemma example_usage_stops_when_listing_fails_witness :
  fst (example_usage (world (boot [Some "connection refused"])))
  = Uncaught (UnboundLocalError "cursor")
  /\ fst (example_usage (world (boot [None; None; Some "permission denied"])))
     = UncaughtTypeError "'NoneType' object is not iterable".
Proof.
  split.
  - apply (example_usage_stops_when_listing_fails
             (world (boot [Some "connection refused"])) "connection refused").
    eexists. reflexivity.
  - apply (example_usage_stops_when_listing_fails
             (world (boot [None; None; Some "permission denied"]))
             "permission denied").
    left. eexists. reflexivity.
Defined.

(** ** A refused switch by itself *)

(** [switch_database] reports a refused connection only by printing it:
    it returns [None] as it does on success, and the facade keeps the
    session it had, with every driver object as it was. *)
Theorem switch_database_failure_keeps_session dbname s msg rest :
  faults (world s) = Some msg :: rest ->
  fst (switch_database dbname s) = Normal RNone
  /\ self (snd (switch_database dbname s)) = self s
  /\ conns (world (snd (switch_database dbname s))) = conns (world s)
  /\ cursors (world (snd (switch_database dbname s))) = cursors (world s)
  /\ stdout (world (snd (switch_database dbname s)))
     = stdout (world s) ++ ["Error: " +:+ msg].
Proof.
  intros Hfs. rewrite (switch_database_refused _ _ _ _ Hfs).
  repeat split; reflexivity.
Qed.

Lemma switch_database_failure_keeps_session_witness :
  self (snd (switch_database "other_db"
               (switched [None; None; Some "no such database"])))
  = self (switched [None; None; Some "no such database"]).
Proof.
  apply (switch_database_failure_keeps_session "other_db"
           (switched [None; None; Some "no such database"])
           "no such database" []).
  reflexivity.
Defined.
